(** * Order and payment core of the Flask e-shop

    A shallow embedding of the handlers that create, pay, ship and refund
    orders ([app/api/routes.py], [app/admin/routes.py]) over the tables of
    [app/models.py], and the properties of the order state machine and of
    the stock bookkeeping that follow from them.

    The relational store is passed explicitly.  What the outside world
    answers during one request (the payment gateway, the mail templates,
    the generators of identifiers) is an argument of the handler; what the
    handler asks of the outside world is returned as a list of effects.

    The admin session, product deletion, uploads, the configuration values
    that are computed and the order numbers ([app/services/uploads.py],
    [app/config.py], [app/helpers.py]) are embedded in the same way. *)

From Stdlib Require Import ZArith Ascii String List Lia DecimalString.
From stdpp Require Import base decidable option list gmap strings fin_maps.

Local Open Scope Z_scope.
Local Open Scope string_scope.

(** ** Python values *)

(** [str(n)] for an integer. *)
Definition str_int (z : Z) : string := NilZero.string_of_int (Z.to_int z).

(** Truth value of a string: the empty string is false. *)
Definition truthy (s : string) : bool := negb (String.eqb s "").

(** Truth value of an optional string ([None] or a string). *)
Definition truthy_opt (o : option string) : bool :=
  match o with
  | Some s => truthy s
  | None => false
  end.

(** [sum(...)]: Python adds the elements to 0 from left to right. *)
Definition sum (l : list Z) : Z := fold_left Z.add l 0.

(** ** Tables ([app/models.py])

    Only the columns the order and payment handlers read or write are
    kept; a product's primary key is its key in the product table. *)

Record Product := mkProduct {
  name : string;
  price : Z;
  stock : Z;
  visible : bool
}.

Record OrderItem := mkOrderItem {
  quantity : Z;
  price_at_time : Z;
  product_name : string;
  product_id : option string
}.

Record Order := mkOrder {
  order_id : string;
  order_number : string;
  status : string;
  customer_name : string;
  customer_email : string;
  shipping_address : string;
  subtotal : Z;
  shipping_cost : Z;
  total : Z;
  stripe_payment_intent_id : option string;
  confirmation_sent : bool;
  shipping_notified : bool;
  items : list OrderItem
}.

Record ShopSettings := mkShopSettings {
  currency : string;
  shipping_fee : Z
}.

Record Store := mkStore {
  products : gmap string Product;
  orders : list Order;
  settings : option ShopSettings
}.

(** Attribute assignments. *)

Definition set_stock (p : Product) (s : Z) : Product :=
  mkProduct (name p) (price p) s (visible p).

Definition set_status (o : Order) (s : string) : Order :=
  mkOrder (order_id o) (order_number o) s (customer_name o)
    (customer_email o) (shipping_address o) (subtotal o) (shipping_cost o)
    (total o) (stripe_payment_intent_id o) (confirmation_sent o)
    (shipping_notified o) (items o).

Definition set_confirmation_sent (o : Order) (b : bool) : Order :=
  mkOrder (order_id o) (order_number o) (status o) (customer_name o)
    (customer_email o) (shipping_address o) (subtotal o) (shipping_cost o)
    (total o) (stripe_payment_intent_id o) b (shipping_notified o) (items o).

Definition set_shipping_notified (o : Order) (b : bool) : Order :=
  mkOrder (order_id o) (order_number o) (status o) (customer_name o)
    (customer_email o) (shipping_address o) (subtotal o) (shipping_cost o)
    (total o) (stripe_payment_intent_id o) (confirmation_sent o) b (items o).

Definition set_stripe_payment_intent_id (o : Order) (pi : option string) : Order :=
  mkOrder (order_id o) (order_number o) (status o) (customer_name o)
    (customer_email o) (shipping_address o) (subtotal o) (shipping_cost o)
    (total o) pi (confirmation_sent o) (shipping_notified o) (items o).

Definition set_orders (st : Store) (os : list Order) : Store :=
  mkStore (products st) os (settings st).

(** ** Queries *)

(** [Order.query.filter_by(stripe_payment_intent_id=pi).first()], with the
    position of the row so that it can be updated in place. *)
Definition order_by_intent (pi : string) (os : list Order) : option (nat * Order) :=
  list_find (fun o => stripe_payment_intent_id o = Some pi) os.

(** [Order.query.get(id)]. *)
Definition order_by_id (id : string) (os : list Order) : option (nat * Order) :=
  list_find (fun o => order_id o = id) os.

(** The column [stripe_payment_intent_id] is declared unique: two rows
    holding the same reference are the same row. *)
Definition intent_unique (os : list Order) : Prop :=
  forall i j o1 o2 pi,
    os !! i = Some o1 -> os !! j = Some o2 ->
    stripe_payment_intent_id o1 = Some pi ->
    stripe_payment_intent_id o2 = Some pi -> i = j.

(** ** What a handler asks of the outside world *)

Inductive Effect :=
| SendEmail (subject recipient template : string)
| PaymentIntentCreate (amount : Z) (cur : string) (orderId orderNumber : string)
| RefundCreate (payment_intent : string).

(** [send_order_confirmation(order)] and [send_shipping_notification(order)]
    ([app/services/email.py]). *)
Definition send_order_confirmation (o : Order) : Effect :=
  SendEmail ("Order Confirmed - " ++ order_number o) (customer_email o)
    "emails/order_confirmation.html".

Definition send_shipping_notification (o : Order) : Effect :=
  SendEmail ("Your Order Has Shipped - " ++ order_number o) (customer_email o)
    "emails/shipping_update.html".

(** ** The payment webhook ([stripe_webhook]) *)

Record Event := mkEvent {
  ev_type : string;   (* event["type"] *)
  ev_intent : string  (* event["data"]["object"]["id"] *)
}.

Inductive WebhookResponse :=
| WebhookError (msg : string) (code : Z)
| WebhookReceived.

(** One turn of the loop that decrements stock. *)
Definition decrement_stock (ps : gmap string Product) (item : OrderItem)
  : gmap string Product :=
  match product_id item with
  | Some pid =>
      if truthy pid then
        match ps !! pid with
        | Some product =>
            <[pid := set_stock product (Z.max 0 (stock product - quantity item))]> ps
        | None => ps
        end
      else ps
  | None => ps
  end.

Definition decrement_all (its : list OrderItem) (ps : gmap string Product)
  : gmap string Product :=
  fold_left decrement_stock its ps.

(** [verify_webhook] answers [None] when the gateway library raises;
    [mail_raises] says whether sending the confirmation raises. *)
Definition stripe_webhook (verify_webhook : string -> string -> option Event)
    (mail_raises : bool) (st : Store) (payload : string)
    (signature : option string) : WebhookResponse * Store * list Effect :=
  if negb (truthy_opt signature) then
    (WebhookError "Missing signature" 400, st, [])
  else
    match verify_webhook payload (default "" signature) with
    | None => (WebhookError "Invalid signature" 400, st, [])
    | Some event =>
        if decide (ev_type event = "payment_intent.succeeded") then
          match order_by_intent (ev_intent event) (orders st) with
          | Some (i, order) =>
              if decide (status order = "PENDING") then
                let paid := set_status order "PAID" in
                let ps := decrement_all (items paid) (products st) in
                let sent :=
                  if mail_raises then paid else set_confirmation_sent paid true in
                (WebhookReceived,
                 mkStore ps (<[i := sent]> (orders st)) (settings st),
                 [send_order_confirmation paid])
              else (WebhookReceived, st, [])
          | None => (WebhookReceived, st, [])
          end
        else (WebhookReceived, st, [])
    end.

(** A delivery to the webhook, and a run of deliveries. *)
Record Delivery := mkDelivery {
  d_payload : string;
  d_signature : option string;
  d_mail_raises : bool
}.

Definition deliver (verify_webhook : string -> string -> option Event)
    (acc : Store * list Effect) (d : Delivery) : Store * list Effect :=
  let '(_, st, asked) :=
    stripe_webhook verify_webhook (d_mail_raises d) (fst acc)
      (d_payload d) (d_signature d) in
  (st, (snd acc ++ asked)%list).

Definition deliver_all (verify_webhook : string -> string -> option Event)
    (ds : list Delivery) (st : Store) : Store * list Effect :=
  fold_left (deliver verify_webhook) ds (st, []).

Definition stocks_nonneg (ps : gmap string Product) : Prop :=
  map_Forall (fun _ p => 0 <= stock p) ps.

(** ** Checkout ([create_payment_intent]) *)

(** An entry of the cart.  The quantity is a JSON integer: the handler
    converts nothing, and its arithmetic on a JSON number with a fraction
    is floating-point arithmetic, which is not embedded here. *)
Record Item := mkItem {
  item_id : string;     (* item["id"] *)
  item_quantity : Z     (* item["quantity"] *)
}.

(** [c_address] is the text [json.dumps] gives for the address. *)
Record Customer := mkCustomer {
  c_name : option string;
  c_email : option string;
  c_address : string
}.

Record CheckoutData := mkCheckoutData {
  d_items : list Item;
  d_customer : Customer
}.

Record Intent := mkIntent {
  intent_id : string;
  client_secret : string
}.

Inductive CheckoutResponse :=
| CheckoutError (msg : string) (code : Z)
| CheckoutOk (clientSecret orderNumber orderId : string)
| CheckoutRaised.

(** The visible products among the requested ones, by id. *)
Definition product_map (ps : gmap string Product) (product_ids : list string)
  : gmap string Product :=
  filter (fun kp => kp.1 ∈ product_ids ∧ visible kp.2 = true) ps.

(** The loop over the items: the first item that fails ends it with the
    error message; otherwise the subtotal and the snapshots accumulate. *)
Fixpoint validate_items (pm : gmap string Product) (its : list Item)
    (subtotal : Z) (order_items : list OrderItem)
  : string + Z * list OrderItem :=
  match its with
  | [] => inr (subtotal, order_items)
  | item :: rest =>
      match pm !! item_id item with
      | None => inl ("Product not found: " ++ item_id item)
      | Some product =>
          if (stock product <? item_quantity item)%Z then
            inl ("Insufficient stock for " ++ name product
                 ++ ". Available: " ++ str_int (stock product))
          else
            validate_items pm rest
              (subtotal + price product * item_quantity item)
              (order_items ++
                 [mkOrderItem (item_quantity item) (price product)
                    (name product) (Some (item_id item))])%list
      end
  end.

(** The insert of the order row fails when its primary key or its order
    number is taken; the final commit fails when the payment-intent
    reference is. *)
Definition flush_conflict (os : list Order) (o : Order) : bool :=
  existsb (fun o' => bool_decide (order_id o' = order_id o)
                     || bool_decide (order_number o' = order_number o)) os.

Definition commit_conflict (os : list Order) (o : Order) : bool :=
  existsb (fun o' => bool_decide (stripe_payment_intent_id o'
                                  = stripe_payment_intent_id o)) os.

(** An insert also fails when an integer of the row does not fit the
    Integer column it goes to.  Which integers fit depends on the database
    the application is configured with; [integer_column] says so.  The row
    of the order carries its three amounts, the row of an item its
    quantity and its price.  SQLite, the database of the default
    configuration, does not enforce the declared lengths of the string
    columns; they are not embedded. *)
Definition order_fits (integer_column : Z -> bool) (o : Order) : bool :=
  integer_column (subtotal o) && integer_column (shipping_cost o)
  && integer_column (total o).

Definition item_fits (integer_column : Z -> bool) (oi : OrderItem) : bool :=
  integer_column (quantity oi) && integer_column (price_at_time oi).

(** [stripe_create_pi amount currency orderId orderNumber] answers [None]
    when the gateway call raises; [new_number] and [new_id] are what
    [generate_order_number()] and [generate_cuid()] return.  A request that
    raises is answered with a server error and its session is discarded.
    The row of the order is inserted by the flush, before the gateway is
    called; the rows of the items are inserted by the final commit. *)
Definition create_payment_intent (integer_column : Z -> bool)
    (stripe_create_pi : Z -> string -> string -> string -> option Intent)
    (new_number new_id : string) (st : Store) (data : CheckoutData)
  : CheckoutResponse * Store * list Effect :=
  let its := d_items data in
  let customer := d_customer data in
  if bool_decide (its = []) || negb (truthy_opt (c_name customer))
     || negb (truthy_opt (c_email customer)) then
    (CheckoutError "Missing required fields" 400, st, [])
  else
    let product_ids := map item_id its in
    let pm := product_map (products st) product_ids in
    match validate_items pm its 0 [] with
    | inl msg => (CheckoutError msg 400, st, [])
    | inr (subtotal, order_items) =>
        let shipping_cost :=
          match settings st with Some s => shipping_fee s | None => 500 end in
        let cur :=
          match settings st with Some s => currency s | None => "usd" end in
        let total := subtotal + shipping_cost in
        let order :=
          mkOrder new_id new_number "PENDING"
            (default "" (c_name customer)) (default "" (c_email customer))
            (c_address customer) subtotal shipping_cost total
            None false false order_items in
        if flush_conflict (orders st) order
           || negb (order_fits integer_column order) then
          (CheckoutRaised, st, [])
        else
          let asked := [PaymentIntentCreate total cur new_id new_number] in
          match stripe_create_pi total cur new_id new_number with
          | None => (CheckoutRaised, st, asked)
          | Some intent =>
              let order := set_stripe_payment_intent_id order
                             (Some (intent_id intent)) in
              if commit_conflict (orders st) order
                 || negb (forallb (item_fits integer_column) order_items) then
                (CheckoutRaised, st, asked)
              else
                (CheckoutOk (client_secret intent) new_number new_id,
                 set_orders st (orders st ++ [order])%list, asked)
          end
    end.

(** The checks of the checkout, in the words of its description. *)

(** A product id resolves to the product of that id when it is visible. *)
Definition resolve (st : Store) (id : string) : option Product :=
  match products st !! id with
  | Some p => if visible p then Some p else None
  | None => None
  end.

Definition fields_present (data : CheckoutData) : Prop :=
  d_items data <> [] /\ truthy_opt (c_name (d_customer data)) = true
  /\ truthy_opt (c_email (d_customer data)) = true.

Definition in_stock (st : Store) (it : Item) : Prop :=
  exists p, resolve st (item_id it) = Some p /\ item_quantity it <= stock p.

Definition short_of_stock (st : Store) (it : Item) (p : Product) : Prop :=
  resolve st (item_id it) = Some p /\ stock p < item_quantity it.

Definition passes_validation (st : Store) (data : CheckoutData) : Prop :=
  fields_present data /\ Forall (in_stock st) (d_items data).

Definition fails_validation (st : Store) (data : CheckoutData) : Prop :=
  d_items data = []
  \/ truthy_opt (c_name (d_customer data)) = false
  \/ truthy_opt (c_email (d_customer data)) = false
  \/ (exists it, it ∈ d_items data /\ resolve st (item_id it) = None)
  \/ (exists it p, it ∈ d_items data /\ short_of_stock st it p).

Definition not_found_msg (it : Item) : string :=
  "Product not found: " ++ item_id it.

Definition insufficient_msg (p : Product) : string :=
  "Insufficient stock for " ++ name p ++ ". Available: " ++ str_int (stock p).

(** Unit price of a product id at validation time, and the sum of
    unit price × quantity over the items. *)
Definition unit_price (st : Store) (id : string) : Z :=
  match resolve st id with Some p => price p | None => 0 end.

Fixpoint items_subtotal (st : Store) (its : list Item) : Z :=
  match its with
  | [] => 0
  | it :: rest => unit_price st (item_id it) * item_quantity it
                  + items_subtotal st rest
  end.

(** The snapshot kept of an item. *)
Definition snapshot (st : Store) (it : Item) : OrderItem :=
  match resolve st (item_id it) with
  | Some p => mkOrderItem (item_quantity it) (price p) (name p) (Some (item_id it))
  | None => mkOrderItem (item_quantity it) 0 "" (Some (item_id it))
  end.

Definition settings_fee (st : Store) : Z :=
  match settings st with Some s => shipping_fee s | None => 500 end.

Definition settings_currency (st : Store) : string :=
  match settings st with Some s => currency s | None => "usd" end.

(** ** Admin: status change ([order_status]) *)

Definition valid : list string :=
  ["PENDING"; "PAID"; "SHIPPED"; "DELIVERED"; "CANCELLED"; "REFUNDED"].

Inductive StatusResponse :=
| StatusNotFound
| StatusForm (order : Order).

(** [new_status] is [request.form.get("status")]; [mail_raises] says
    whether sending the shipping notification raises. *)
Definition order_status (mail_raises : bool) (st : Store) (id : string)
    (new_status : option string) : StatusResponse * Store * list Effect :=
  match order_by_id id (orders st) with
  | None => (StatusNotFound, st, [])
  | Some (i, order) =>
      match new_status with
      | Some s =>
          if decide (s ∈ valid) then
            let order := set_status order s in
            if bool_decide (s = "SHIPPED") && negb (shipping_notified order) then
              let told :=
                if mail_raises then order else set_shipping_notified order true in
              (StatusForm told, set_orders st (<[i := told]> (orders st)),
               [send_shipping_notification order])
            else
              (StatusForm order, set_orders st (<[i := order]> (orders st)), [])
          else (StatusForm order, st, [])
      | None => (StatusForm order, st, [])
      end
  end.

(** ** Admin: refund ([order_refund]) *)

(** What a call to the gateway's refund operation does. *)
Inductive Call :=
| Returns
| Raises (msg : string).

(** The redirect to the order page carries one flashed message and its
    category. *)
Inductive RefundResponse :=
| RefundNotFound
| RefundRedirect (message category : string).

(** One turn of the loop that restocks. *)
Definition restock (ps : gmap string Product) (item : OrderItem)
  : gmap string Product :=
  match product_id item with
  | Some pid =>
      if truthy pid then
        match ps !! pid with
        | Some product =>
            <[pid := set_stock product (stock product + quantity item)]> ps
        | None => ps
        end
      else ps
  | None => ps
  end.

Definition restock_all (its : list OrderItem) (ps : gmap string Product)
  : gmap string Product :=
  fold_left restock its ps.

Definition order_refund (refund_create : string -> Call) (st : Store)
    (id : string) : RefundResponse * Store * list Effect :=
  match order_by_id id (orders st) with
  | None => (RefundNotFound, st, [])
  | Some (i, order) =>
      if negb (truthy_opt (stripe_payment_intent_id order)) then
        (RefundRedirect "No payment to refund" "error", st, [])
      else if decide (status order = "REFUNDED") then
        (RefundRedirect "Already refunded" "error", st, [])
      else
        let pi := default "" (stripe_payment_intent_id order) in
        match refund_create pi with
        | Raises e =>
            (RefundRedirect ("Refund failed: " ++ e) "error", st,
             [RefundCreate pi])
        | Returns =>
            let ps := restock_all (items order) (products st) in
            let order := set_status order "REFUNDED" in
            (RefundRedirect "Refund issued successfully" "success",
             mkStore ps (<[i := order]> (orders st)) (settings st),
             [RefundCreate pi])
        end
  end.

(** The quantity a refund adds to product [pid]: the quantities of the
    items that refer to it. *)
Fixpoint restocked (pid : string) (its : list OrderItem) : Z :=
  match its with
  | [] => 0
  | it :: rest =>
      (if decide (product_id it = Some pid) then quantity it else 0)
      + restocked pid rest
  end.

(** ** Admin: dashboard figures ([dashboard]) *)

(** The figures handed to the dashboard template; the list of products
    low on stock, which nothing below reads, is left out. *)
Record Dashboard := mkDashboard {
  total_revenue : Z;
  order_count : nat;
  pending_count : Z;
  product_count : nat
}.

Definition paid_orders (os : list Order) : list Order :=
  filter (fun o => status o ∉ ["PENDING"; "CANCELLED"]) os.

Definition dashboard (st : Store) : Dashboard :=
  let os := orders st in
  mkDashboard
    (sum (map total (paid_orders os)))
    (length os)
    (sum (map (fun _ => 1) (filter (fun o => status o = "PENDING") os)))
    (size (products st)).

(** The revenue in the words of its description: every order adds its
    total unless its status is PENDING or CANCELLED. *)
Definition counts_as_revenue (o : Order) : bool :=
  negb (String.eqb (status o) "PENDING") && negb (String.eqb (status o) "CANCELLED").

Fixpoint revenue (os : list Order) : Z :=
  match os with
  | [] => 0
  | o :: rest => (if counts_as_revenue o then total o else 0) + revenue rest
  end.

(** ** Admin: deleting a product ([product_delete])

    The row of the product goes; the items that referred to it have their
    reference set to null (the foreign key of [OrderItem.product_id]) and
    keep their snapshot. *)

Definition set_items (o : Order) (its : list OrderItem) : Order :=
  mkOrder (order_id o) (order_number o) (status o) (customer_name o)
    (customer_email o) (shipping_address o) (subtotal o) (shipping_cost o)
    (total o) (stripe_payment_intent_id o) (confirmation_sent o)
    (shipping_notified o) its.

Definition forget_product (id : string) (it : OrderItem) : OrderItem :=
  if decide (product_id it = Some id) then
    mkOrderItem (quantity it) (price_at_time it) (product_name it) None
  else it.

Inductive DeleteResponse :=
| DeleteNotFound
| DeleteRedirect (message category : string).

Definition product_delete (st : Store) (id : string) : DeleteResponse * Store :=
  match products st !! id with
  | None => (DeleteNotFound, st)
  | Some product =>
      (DeleteRedirect "Product deleted" "success",
       mkStore (delete id (products st))
         (map (fun o => set_items o (map (forget_product id) (items o)))
            (orders st))
         (settings st))
  end.

(** ** Admin session ([login], [logout])

    The session holds at most the key "admin", and only ever with the
    value [True]: a boolean says whether it is there. *)

Inductive Method := GET | POST.

Inductive LoginResponse :=
| LoginRedirect (endpoint : string)
| LoginPage (error : option string).

(** [password] is what the form holds under "password", if anything. *)
Definition login (ADMIN_PASSWORD : string) (admin : bool) (method : Method)
    (password : option string) : LoginResponse * bool :=
  if admin then (LoginRedirect "admin.dashboard", admin)
  else
    match method with
    | POST =>
        if decide (default "" password = ADMIN_PASSWORD) then
          (LoginRedirect "admin.dashboard", true)
        else (LoginPage (Some "Invalid password"), admin)
    | GET => (LoginPage None, admin)
    end.

Definition logout (admin : bool) : LoginResponse * bool :=
  (LoginRedirect "admin.login", false).

Inductive SessionRequest :=
| Login (method : Method) (password : option string)
| Logout.

Definition session_step (ADMIN_PASSWORD : string) (admin : bool)
    (r : SessionRequest) : bool :=
  match r with
  | Login method password => snd (login ADMIN_PASSWORD admin method password)
  | Logout => snd (logout admin)
  end.

Definition session_run (ADMIN_PASSWORD : string) (rs : list SessionRequest)
    (admin : bool) : bool :=
  fold_left (session_step ADMIN_PASSWORD) rs admin.

(** ** Python strings *)

(** [sub in s]. *)
Fixpoint contains (sub s : string) : bool :=
  if String.prefix sub s then true
  else
    match s with
    | EmptyString => false
    | String _ s' => contains sub s'
    end.

(** [s[n:]]. *)
Fixpoint skip (n : nat) (s : string) : string :=
  match n, s with
  | O, _ => s
  | S n', String _ s' => skip n' s'
  | S _, EmptyString => EmptyString
  end.

(** [s.replace(old, new, 1)]: the leftmost occurrence is replaced. *)
Fixpoint replace1 (old new s : string) : string :=
  if String.prefix old s then new ++ skip (String.length old) s
  else
    match s with
    | EmptyString => EmptyString
    | String c s' => String c (replace1 old new s')
    end.

(** [s.rsplit(sep, 1)] for a separator of one character: the text before
    the last separator and the text after it, or the text alone. *)
Fixpoint rsplit1 (sep : ascii) (s : string) : list string :=
  match s with
  | EmptyString => [EmptyString]
  | String c s' =>
      match rsplit1 sep s' with
      | [a; b] => [String c a; b]
      | _ => if Ascii.eqb c sep then [EmptyString; s'] else [String c s']
      end
  end.

(** [s.lower()] on the letters A to Z.  Characters outside ASCII are left
    as they are: the words that lower-cased text is compared with below
    (the allowed extensions, "true") are reached from ASCII letters
    only. *)
Definition lower_char (c : ascii) : ascii :=
  let n := nat_of_ascii c in
  if (65 <=? n)%nat && (n <=? 90)%nat then ascii_of_nat (n + 32) else c.

Fixpoint lower (s : string) : string :=
  match s with
  | EmptyString => EmptyString
  | String c s' => String (lower_char c) (lower s')
  end.

(** ** Uploads ([app/services/uploads.py], [upload], [serve_upload]) *)

Definition ALLOWED_EXTENSIONS : gset string :=
  {[ "png"; "jpg"; "jpeg"; "gif"; "webp" ]}.

(** The extension as both functions read it: [rsplit(".", 1)[1].lower()]. *)
Definition extension (filename : string) : string :=
  lower (default "" (rsplit1 "."%char filename !! 1%nat)).

Definition allowed_file (filename : string) : bool :=
  contains "." filename && bool_decide (extension filename ∈ ALLOWED_EXTENSIONS).

(** [hex] is [uuid.uuid4().hex]; the result is the name the file is saved
    under in the upload directory, and the URL returned. *)
Definition save_upload (hex filename : string) : string * string :=
  let ext := if contains "." filename then extension filename else "jpg" in
  let stored := hex ++ "." ++ ext in
  (stored, "/api/uploads/" ++ stored).

Inductive UploadResponse :=
| UploadError (msg : string) (code : Z)
| UploadCreated (url : string) (code : Z).

(** [file] is the file name of the part "file" of the request, if there is
    one; the second component is the name a file was saved under. *)
Definition upload (admin : bool) (hex : string) (file : option string)
  : UploadResponse * option string :=
  if negb admin then (UploadError "Unauthorized" 401, None)
  else if negb (truthy_opt file) then (UploadError "No file provided" 400, None)
  else
    let filename := default "" file in
    if negb (allowed_file filename) then
      (UploadError "Invalid file type" 400, None)
    else
      let '(stored, url) := save_upload hex filename in
      (UploadCreated url 201, Some stored).

Inductive ServeResponse :=
| ServeAbort (code : Z)
| ServeFromDirectory (directory filename : string) (max_age : Z).

Definition serve_upload (UPLOAD_DIR filename : string) : ServeResponse :=
  if contains ".." filename then ServeAbort 400
  else ServeFromDirectory UPLOAD_DIR filename 31536000.

(** ** Configuration ([app/config.py]) *)

(** [DATABASE_URL] is the environment variable, if set. *)
Definition SQLALCHEMY_DATABASE_URI (DATABASE_URL : option string) : string :=
  let _db_url := default "sqlite:///dev.db" DATABASE_URL in
  if String.prefix "postgres://" _db_url then
    replace1 "postgres://" "postgresql://" _db_url
  else _db_url.

(** [MAIL_USE_TLS] is the environment variable, if set. *)
Definition MAIL_USE_TLS (env : option string) : bool :=
  String.eqb (lower (default "true" env)) "true".

(** ** Order numbers ([generate_order_number]) *)

Definition BASE36 : string := "0123456789ABCDEFGHIJKLMNOPQRSTUVWXYZ".

(** [BASE36[rem]]. *)
Definition base36_digit (rem : N) : ascii :=
  default "0"%char (String.get (N.to_nat rem) BASE36).

(** The loop [while now: now, rem = divmod(now, 36); ...], which ends
    after at most as many turns as [now] has bits. *)
Fixpoint base36_loop (turns : nat) (now : N) (base36 : string) : string :=
  match turns with
  | O => base36
  | S turns' =>
      if (now =? 0)%N then base36
      else base36_loop turns' (now / 36)%N
             (String (base36_digit (now mod 36)%N) base36)
  end.

(** [now] is [int(time.time() * 1000)], [rand] the four characters
    [random.choices] picks, joined. *)
Definition generate_order_number (now : N) (rand : string) : string :=
  "ORD-" ++ base36_loop (N.size_nat now) now "" ++ "-" ++ rand.

(** The value of a digit of [BASE36], and [int(s, 36)] on such digits. *)
Definition base36_value (c : ascii) : N :=
  let n := N_of_ascii c in
  if (n <? 58)%N then (n - 48)%N else (n - 55)%N.

Definition int36 (s : string) : N :=
  fold_left (fun acc c => (36 * acc + base36_value c)%N)
    (list_ascii_of_string s) 0%N.


(** ** The order a checkout makes

    The row an accepted checkout appends, once the gateway has answered
    with [intent]. *)
Definition new_order (id n : string) (st : Store) (data : CheckoutData)
    (intent : Intent) : Order :=
  mkOrder id n "PENDING"
    (default "" (c_name (d_customer data)))
    (default "" (c_email (d_customer data)))
    (c_address (d_customer data))
    (items_subtotal st (d_items data)) (settings_fee st)
    (items_subtotal st (d_items data) + settings_fee st)
    (Some (intent_id intent)) false false
    (map (snapshot st) (d_items data)).

(** ** A small shop, for the examples *)

Definition mug : Product := mkProduct "Mug" 1000 10 true.
Definition lamp : Product := mkProduct "Lamp" 2500 1 true.
Definition draft : Product := mkProduct "Draft" 700 5 false.

Definition shelf : gmap string Product :=
  <["p-mug" := mug]> (<["p-lamp" := lamp]> (<["p-draft" := draft]> ∅)).

Definition eur : ShopSettings := mkShopSettings "eur" 450.

Definition alice : Customer :=
  mkCustomer (Some "Alice") (Some "alice@example.com") "{}".

(** Three mugs for Alice, in the given status. *)
Definition mugs_order (s : string) (pi : option string) : Order :=
  mkOrder "o1" "ORD-M0000000-AB12" s "Alice" "alice@example.com" "{}"
    3000 450 3450 pi false false
    [mkOrderItem 3 1000 "Mug" (Some "p-mug")].

Definition shop (os : list Order) : Store := mkStore shelf os (Some eur).

(** The integers SQLite, the database of the default configuration,
    takes: those of 64 bits. *)
Definition sqlite_integer (z : Z) : bool :=
  ((- 2 ^ 63 <=? z) && (z <? 2 ^ 63))%Z.

(** A gateway that accepts every call, and one that refuses refunds. *)
Definition gateway_ok (amount : Z) (cur orderId orderNumber : string)
  : option Intent := Some (mkIntent "pi_9" "pi_9_secret").

Definition refund_ok (pi : string) : Call := Returns.

Definition refund_down (pi : string) : Call := Raises "card network down".

(** A verifier that accepts the signature "t=1,v1=ok" and reads the
    payload as the reference of a succeeded payment intent. *)
Definition verify_ok (payload signature : string) : option Event :=
  if String.eqb signature "t=1,v1=ok" then
    Some (mkEvent "payment_intent.succeeded" payload)
  else None.

Definition succeeded (pi : string) (mail_raises : bool) : Delivery :=
  mkDelivery pi (Some "t=1,v1=ok") mail_raises.

(** A cart whose first item asks for more lamps than there are and whose
    second item names no product. *)
Definition cart_short_then_ghost : CheckoutData :=
  mkCheckoutData [mkItem "p-lamp" 3; mkItem "ghost" 1] alice.

(** A cart with a quantity of zero and a negative one, and a positive
    amount to pay. *)
Definition cart_no_lamp : CheckoutData :=
  mkCheckoutData [mkItem "p-lamp" 0; mkItem "p-lamp" (-1); mkItem "p-mug" 4]
    alice.

(** A cart whose second item names no product and whose last item asks
    for more lamps than there are. *)
Definition cart_ghost_then_short : CheckoutData :=
  mkCheckoutData [mkItem "p-mug" 3; mkItem "ghost" 1; mkItem "p-lamp" 9] alice.

(** A cart that asks for a negative quantity whose amount no 64-bit
    integer holds. *)
Definition cart_huge_credit : CheckoutData :=
  mkCheckoutData [mkItem "p-mug" (- 10 ^ 20)] alice.

Definition cart_mugs_and_lamp : CheckoutData :=
  mkCheckoutData [mkItem "p-mug" 3; mkItem "p-lamp" 1] alice.

(** The order that cart makes, second in the ledger. *)
Definition mugs_and_lamp_order : Order :=
  mkOrder "o2" "ORD-M0000001-CD34" "PENDING" "Alice" "alice@example.com" "{}"
    5500 450 5950 (Some "pi_9") false false
    [mkOrderItem 3 1000 "Mug" (Some "p-mug");
     mkOrderItem 1 2500 "Lamp" (Some "p-lamp")].

(** * Properties *)

(** ** Finding an order *)

Lemma order_by_intent_Some pi os i o :
  order_by_intent pi os = Some (i, o) ->
  os !! i = Some o /\ stripe_payment_intent_id o = Some pi.
Proof.
  unfold order_by_intent. intros (Hi & Hp & _)%list_find_Some. done.
Qed.


Lemma list_find_insert_same {A} (P : A -> Prop) `{forall x, Decision (P x)}
    (l : list A) i x x' :
  list_find P l = Some (i, x) -> P x' ->
  list_find P (<[i := x']> l) = Some (i, x').
Proof.
  intros (Hi & Hp & Hmin)%list_find_Some Hp'.
  apply list_find_Some. split_and!.
  - apply list_lookup_insert_eq. by eapply lookup_lt_Some.
  - done.
  - intros j y Hj Hlt. rewrite list_lookup_insert_ne in Hj by lia. eauto.
Qed.


Lemma order_by_id_Some id os i o :
  order_by_id id os = Some (i, o) -> os !! i = Some o /\ order_id o = id.
Proof.
  unfold order_by_id. intros (Hi & Hp & _)%list_find_Some. done.
Qed.

Lemma order_by_id_insert id os i o o' :
  order_by_id id os = Some (i, o) -> order_id o' = id ->
  order_by_id id (<[i := o']> os) = Some (i, o').
Proof. apply (list_find_insert_same (fun o => order_id o = id)). Qed.

(** ** The unique column stays unique *)

Lemma intent_unique_snoc os o :
  intent_unique os ->
  (forall o', o' ∈ os ->
              stripe_payment_intent_id o' <> stripe_payment_intent_id o) ->
  intent_unique (os ++ [o])%list.
Proof.
  intros Hu Hfree i j o1 o2 pi H1 H2 P1 P2.
  apply lookup_app_Some in H1 as [H1|[Hi H1]];
    apply lookup_app_Some in H2 as [H2|[Hj H2]].
  - by apply (Hu i j o1 o2 pi).
  - apply list_lookup_singleton_Some in H2 as [_ <-].
    destruct (Hfree o1); [by eapply list_elem_of_lookup_2 | congruence].
  - apply list_lookup_singleton_Some in H1 as [_ <-].
    destruct (Hfree o2); [by eapply list_elem_of_lookup_2 | congruence].
  - apply list_lookup_singleton_Some in H1 as [Hi0 _].
    apply list_lookup_singleton_Some in H2 as [Hj0 _]. lia.
Qed.

Lemma intent_unique_insert os i o o' :
  os !! i = Some o ->
  stripe_payment_intent_id o' = stripe_payment_intent_id o ->
  intent_unique os -> intent_unique (<[i := o']> os).
Proof.
  intros Hi Hsame Hu a b o1 o2 pi H1 H2 P1 P2.
  assert (Hback : forall k x,
            <[i := o']> os !! k = Some x ->
            stripe_payment_intent_id x = Some pi ->
            exists y, os !! k = Some y /\ stripe_payment_intent_id y = Some pi).
  { intros k x Hk Px. destruct (decide (i = k)) as [<-|Hne].
    - rewrite list_lookup_insert_eq in Hk by (by eapply lookup_lt_Some).
      injection Hk as <-. exists o. split; [done | congruence].
    - rewrite list_lookup_insert_ne in Hk by done. by exists x. }
  destruct (Hback a o1 H1 P1) as (y1 & Hy1 & Py1).
  destruct (Hback b o2 H2 P2) as (y2 & Hy2 & Py2).
  by apply (Hu a b y1 y2 pi).
Qed.

Lemma commit_conflict_false os o :
  commit_conflict os o = false ->
  forall o', o' ∈ os ->
             stripe_payment_intent_id o' <> stripe_payment_intent_id o.
Proof.
  unfold commit_conflict. intros Hc o' Hin Heq.
  apply not_true_iff_false in Hc. apply Hc, existsb_exists.
  exists o'. split; [by apply list_elem_of_In | by apply bool_decide_eq_true].
Qed.

Lemma create_payment_intent_unique fits gw n id st data :
  intent_unique (orders st) ->
  intent_unique (orders (snd (fst (create_payment_intent fits gw n id st data)))).
Proof.
  intros Hu. unfold create_payment_intent.
  destruct (_ || _); [done|].
  destruct (validate_items _ _ _ _) as [msg|[sub ois]]; [done|].
  destruct (flush_conflict _ _ || _); [done|].
  destruct (gw _ _ _ _) as [intent|]; [|done].
  destruct (commit_conflict _ _ || _) eqn:Hc; [done|].
  apply orb_false_iff in Hc as [Hc _]. simpl.
  apply intent_unique_snoc; [done|]. by apply commit_conflict_false.
Qed.

Lemma stripe_webhook_unique verify r st payload sig :
  intent_unique (orders st) ->
  intent_unique (orders (snd (fst (stripe_webhook verify r st payload sig)))).
Proof.
  intros Hu. unfold stripe_webhook.
  destruct (negb (truthy_opt sig)); [done|].
  destruct (verify _ _) as [ev|]; [|done].
  destruct (decide _); [|done].
  destruct (order_by_intent _ _) as [[i o]|] eqn:Hf; [|done].
  destruct (decide _); [|done]. simpl.
  apply order_by_intent_Some in Hf as [Hi _].
  apply intent_unique_insert with (o := o); [done | by destruct r | done].
Qed.

(** ** Stock under the webhook *)

Lemma decrement_stock_lookup ps item pid :
  product_id item = Some pid -> truthy pid = true ->
  decrement_stock ps item !! pid
  = (fun p => set_stock p (Z.max 0 (stock p - quantity item))) <$> ps !! pid.
Proof.
  intros Hid Ht. unfold decrement_stock. rewrite Hid, Ht.
  destruct (ps !! pid) as [p|] eqn:E; simpl.
  - by rewrite lookup_insert_eq.
  - by rewrite E.
Qed.

Lemma decrement_stock_nonneg ps item :
  stocks_nonneg ps -> stocks_nonneg (decrement_stock ps item).
Proof.
  intros H. unfold decrement_stock.
  destruct (product_id item) as [q|]; [|done].
  destruct (truthy q); [|done].
  destruct (ps !! q) as [product|] eqn:E; [|done].
  apply map_Forall_insert_2; [simpl; lia | done].
Qed.

Lemma decrement_all_nonneg its :
  forall ps, stocks_nonneg ps -> stocks_nonneg (decrement_all its ps).
Proof.
  unfold decrement_all.
  induction its as [|it its IH]; intros ps H; simpl; [done|].
  apply IH. by apply decrement_stock_nonneg.
Qed.

Lemma stripe_webhook_nonneg verify r st payload sig :
  stocks_nonneg (products st) ->
  stocks_nonneg (products (snd (fst (stripe_webhook verify r st payload sig)))).
Proof.
  intros H. unfold stripe_webhook.
  destruct (negb (truthy_opt sig)); [done|].
  destruct (verify _ _) as [ev|]; [|done].
  destruct (decide _); [|done].
  destruct (order_by_intent _ _) as [[i o]|]; [|done].
  destruct (decide _); [|done].
  simpl. by apply decrement_all_nonneg.
Qed.

Lemma deliver_nonneg verify acc d :
  stocks_nonneg (products (fst acc)) ->
  stocks_nonneg (products (fst (deliver verify acc d))).
Proof.
  intros H. unfold deliver.
  pose proof (stripe_webhook_nonneg verify (d_mail_raises d) (fst acc)
                (d_payload d) (d_signature d) H) as H'.
  destruct (stripe_webhook _ _ _ _ _) as [[r st'] asked]. exact H'.
Qed.

Lemma deliver_all_nonneg verify ds :
  forall acc, stocks_nonneg (products (fst acc)) ->
    stocks_nonneg (products (fst (fold_left (deliver verify) ds acc))).
Proof.
  induction ds as [|d ds IH]; intros acc H; simpl; [done|].
  apply IH. by apply deliver_nonneg.
Qed.

(** C2. Whatever deliveries reach the webhook, in whatever order, a shelf
    without negative stock stays without negative stock; and one turn of
    the decrement loop takes the stock [s] of the product an item of
    quantity [q] refers to to [max 0 (s - q)], which is not negative. *)
Theorem stock_never_negative :
  forall verify (ds : list Delivery) (st : Store),
    stocks_nonneg (products st) ->
    stocks_nonneg (products (fst (deliver_all verify ds st)))
    /\ forall ps item pid p,
         product_id item = Some pid -> truthy pid = true ->
         ps !! pid = Some p ->
         exists p', decrement_stock ps item !! pid = Some p'
                    /\ stock p' = Z.max 0 (stock p - quantity item)
                    /\ 0 <= stock p'.
Proof.
  intros verify ds st H. split.
  - unfold deliver_all. by apply deliver_all_nonneg.
  - intros ps item pid p Hid Ht Hp.
    rewrite (decrement_stock_lookup _ _ _ Hid Ht), Hp. simpl.
    eexists. split; [reflexivity|]. simpl. lia.
Qed.

Lemma stock_never_negative_witness :
  stocks_nonneg (products (shop [mugs_order "PENDING" (Some "pi_1")]))
  /\ stocks_nonneg
       (products
          (fst (deliver_all verify_ok
                  [succeeded "pi_1" false; succeeded "pi_1" true]
                  (shop [mugs_order "PENDING" (Some "pi_1")])))).
Proof.
  assert (H : stocks_nonneg (products (shop [mugs_order "PENDING" (Some "pi_1")])))
    by (unfold stocks_nonneg; apply (bool_decide_unpack _); vm_compute; exact I).
  split; [exact H|].
  exact (proj1 (stock_never_negative verify_ok
                  [succeeded "pi_1" false; succeeded "pi_1" true]
                  (shop [mugs_order "PENDING" (Some "pi_1")]) H)).
Defined.

(** ** The webhook on settled and on pending orders *)

Section Webhook.
Variable verify : string -> string -> option Event.
Variables (payload sig : string) (ev : Event) (st : Store).
Hypothesis signed : truthy sig = true.
Hypothesis verified : verify payload sig = Some ev.
Hypothesis is_succeeded : ev_type ev = "payment_intent.succeeded".

Lemma stripe_webhook_found r i o :
  order_by_intent (ev_intent ev) (orders st) = Some (i, o) ->
  stripe_webhook verify r st payload (Some sig)
  = if decide (status o = "PENDING") then
      (WebhookReceived,
       mkStore (decrement_all (items o) (products st))
         (<[i := if r then set_status o "PAID"
                 else set_confirmation_sent (set_status o "PAID") true]>
            (orders st))
         (settings st),
       [send_order_confirmation (set_status o "PAID")])
    else (WebhookReceived, st, []).
Proof using signed verified is_succeeded.
  intros Hf. unfold stripe_webhook. simpl. rewrite signed. simpl.
  rewrite verified. rewrite decide_True by exact is_succeeded.
  rewrite Hf. reflexivity.
Qed.

End Webhook.



(** ** Checkout: the loop over the items *)

Lemma product_map_lookup st ids id :
  id ∈ ids -> product_map (products st) ids !! id = resolve st id.
Proof.
  intros Hin. unfold product_map, resolve. rewrite map_lookup_filter.
  destruct (products st !! id) as [p|]; simpl; [|done].
  destruct (visible p) eqn:V.
  - by rewrite option_guard_True.
  - rewrite option_guard_False; [done|]. simpl. intros [_ ?]. congruence.
Qed.

Lemma product_map_items st its it :
  it ∈ its ->
  product_map (products st) (map item_id its) !! item_id it
  = resolve st (item_id it).
Proof.
  intros Hin. apply product_map_lookup.
  apply list_elem_of_In, in_map, list_elem_of_In, Hin.
Qed.

Lemma in_stock_or_not st it :
  in_stock st it
  \/ resolve st (item_id it) = None
  \/ exists p, short_of_stock st it p.
Proof.
  unfold in_stock, short_of_stock.
  destruct (resolve st (item_id it)) as [p|]; [|auto].
  destruct (Z_le_gt_dec (item_quantity it) (stock p)).
  - left. eauto.
  - right. right. exists p. split; [done | lia].
Qed.

Lemma in_stock_not_short st it p : in_stock st it -> ~ short_of_stock st it p.
Proof. intros (q & Hq & Hle) [Hp Hlt]. rewrite Hq in Hp. simplify_eq. lia. Qed.

Lemma in_stock_resolves st it : in_stock st it -> resolve st (item_id it) <> None.
Proof. intros (q & Hq & _). congruence. Qed.

Section Loop.
Variables (st : Store) (pm : gmap string Product).

Lemma validate_items_accepts its :
  (forall it, it ∈ its -> pm !! item_id it = resolve st (item_id it)) ->
  Forall (in_stock st) its ->
  forall sub ois,
    validate_items pm its sub ois
    = inr (sub + items_subtotal st its, (ois ++ map (snapshot st) its)%list).
Proof.
  induction its as [|it rest IH]; intros Hpm Hall sub ois; simpl.
  - by rewrite Z.add_0_r, app_nil_r.
  - apply Forall_cons in Hall as [(p & Hp & Hle) Hrest].
    rewrite (Hpm it) by left. rewrite Hp.
    destruct (Z.ltb_spec (stock p) (item_quantity it)) as [?|_]; [lia|].
    rewrite IH; [|intros; apply Hpm; by right|done].
    unfold unit_price, snapshot. rewrite Hp.
    by rewrite Z.add_assoc, <- app_assoc.
Qed.

Lemma validate_items_rejects pre it post :
  (forall x, x ∈ (pre ++ it :: post)%list ->
             pm !! item_id x = resolve st (item_id x)) ->
  Forall (in_stock st) pre ->
  forall sub ois,
    (resolve st (item_id it) = None ->
     validate_items pm (pre ++ it :: post) sub ois = inl (not_found_msg it))
    /\ (forall p, short_of_stock st it p ->
        validate_items pm (pre ++ it :: post) sub ois
        = inl (insufficient_msg p)).
Proof.
  induction pre as [|x pre IH]; intros Hpm Hall sub ois; simpl.
  - rewrite (Hpm it) by left. split.
    + by intros ->.
    + intros p [-> Hlt].
      by destruct (Z.ltb_spec (stock p) (item_quantity it)) as [_|?]; [|lia].
  - apply Forall_cons in Hall as [(p & Hp & Hle) Hrest].
    rewrite (Hpm x) by left. rewrite Hp.
    destruct (Z.ltb_spec (stock p) (item_quantity x)) as [?|_]; [lia|].
    apply IH; [intros; apply Hpm; by right|done].
Qed.

Lemma validate_items_accepted its :
  (forall it, it ∈ its -> pm !! item_id it = resolve st (item_id it)) ->
  forall sub ois s o,
    validate_items pm its sub ois = inr (s, o) -> Forall (in_stock st) its.
Proof.
  induction its as [|it rest IH]; intros Hpm sub ois s o Hv; [done|].
  simpl in Hv. rewrite (Hpm it) in Hv by left.
  destruct (resolve st (item_id it)) as [p|] eqn:Hp; [|done].
  destruct (Z.ltb_spec (stock p) (item_quantity it)) as [?|Hle]; [done|].
  constructor.
  - exists p. by split.
  - eapply IH; [intros; apply Hpm; by right | exact Hv].
Qed.
End Loop.

Lemma first_failure st its :
  ~ Forall (in_stock st) its ->
  exists pre it post,
    its = (pre ++ it :: post)%list /\ Forall (in_stock st) pre
    /\ (resolve st (item_id it) = None \/ exists p, short_of_stock st it p).
Proof.
  induction its as [|x rest IH]; intros Hn.
  - destruct Hn. constructor.
  - destruct (in_stock_or_not st x) as [Hx|Hx].
    + destruct IH as (pre & it & post & -> & Hpre & Hit).
      { intros Hrest. apply Hn. by constructor. }
      exists (x :: pre), it, post. split_and!; [done| by constructor |done].
    + exists [], x, rest. split_and!; [done|constructor|done].
Qed.

(** ** Checkout: the handler *)

Lemma fields_present_check data :
  fields_present data ->
  bool_decide (d_items data = [])
  || negb (truthy_opt (c_name (d_customer data)))
  || negb (truthy_opt (c_email (d_customer data))) = false.
Proof.
  intros (Hi & -> & ->). by rewrite bool_decide_eq_false_2.
Qed.

Lemma fields_absent_check data :
  ~ fields_present data ->
  bool_decide (d_items data = [])
  || negb (truthy_opt (c_name (d_customer data)))
  || negb (truthy_opt (c_email (d_customer data))) = true.
Proof.
  intros Hn. unfold fields_present in Hn.
  destruct (bool_decide_reflect (d_items data = [])) as [|Hi]; [done|].
  destruct (truthy_opt (c_name _)); [|done].
  destruct (truthy_opt (c_email _)); [|done].
  destruct Hn. done.
Qed.

Lemma checkout_missing_fields fits gw n id st data :
  ~ fields_present data ->
  create_payment_intent fits gw n id st data
  = (CheckoutError "Missing required fields" 400, st, []).
Proof.
  intros Hn. unfold create_payment_intent.
  by rewrite (fields_absent_check _ Hn).
Qed.

Lemma checkout_first_failure fits gw n id st data pre it post :
  fields_present data ->
  d_items data = (pre ++ it :: post)%list ->
  Forall (in_stock st) pre ->
  (resolve st (item_id it) = None ->
   create_payment_intent fits gw n id st data
   = (CheckoutError (not_found_msg it) 400, st, []))
  /\ (forall p, short_of_stock st it p ->
      create_payment_intent fits gw n id st data
      = (CheckoutError (insufficient_msg p) 400, st, [])).
Proof.
  intros Hf Hits Hpre.
  destruct (validate_items_rejects st
              (product_map (products st) (map item_id (d_items data)))
              pre it post) with (sub := 0) (ois := @nil OrderItem)
    as [Hnone Hshort]; [|done|].
  { intros x Hx. apply product_map_items. by rewrite Hits. }
  unfold create_payment_intent. rewrite (fields_present_check _ Hf).
  rewrite Hits in *. split.
  - intros Hr. by rewrite (Hnone Hr).
  - intros p Hp. by rewrite (Hshort p Hp).
Qed.

Lemma fields_present_dec data : {fields_present data} + {~ fields_present data}.
Proof.
  unfold fields_present.
  destruct (decide (d_items data = [])); [right; by intros (? & _)|].
  destruct (truthy_opt (c_name (d_customer data)));
    [|right; by intros (_ & ? & _)].
  destruct (truthy_opt (c_email (d_customer data)));
    [|right; by intros (_ & _ & ?)].
  by left.
Qed.

Lemma flush_conflict_free os o :
  (forall o', o' ∈ os -> order_id o' <> order_id o
                         /\ order_number o' <> order_number o) ->
  flush_conflict os o = false.
Proof.
  intros Hfree. unfold flush_conflict. apply not_true_iff_false.
  intros (o' & Hin & Hb)%existsb_exists.
  apply list_elem_of_In, Hfree in Hin as [Hid Hnum].
  apply orb_true_iff in Hb as [Hb|Hb]; apply bool_decide_eq_true in Hb; done.
Qed.

Lemma commit_conflict_free os o :
  (forall o', o' ∈ os ->
              stripe_payment_intent_id o' <> stripe_payment_intent_id o) ->
  commit_conflict os o = false.
Proof.
  intros Hfree. unfold commit_conflict. apply not_true_iff_false.
  intros (o' & Hin & Hb)%existsb_exists.
  apply list_elem_of_In, Hfree in Hin.
  by apply bool_decide_eq_true in Hb.
Qed.

(** C3, as the handler has it.  Once the item list is non-empty and name
    and email are present, the items are checked one after the other, each
    first for its product and then for its quantity, and the first item
    that fails either check decides the answer: an id that resolves to no
    visible product is reported when every item before it resolves with
    enough stock, whatever the items after it ask for; an item short of
    stock is reported in the same way, whatever ids come after it. *)
Theorem checkout_reports_first_failing_item :
  forall fits gw n id (st : Store) (data : CheckoutData) pre it post,
    fields_present data ->
    d_items data = (pre ++ it :: post)%list ->
    Forall (in_stock st) pre ->
    (resolve st (item_id it) = None ->
     create_payment_intent fits gw n id st data
     = (CheckoutError ("Product not found: " ++ item_id it) 400, st, []))
    /\ (forall p, short_of_stock st it p ->
        create_payment_intent fits gw n id st data
        = (CheckoutError
             ("Insufficient stock for " ++ name p ++ ". Available: "
              ++ str_int (stock p)) 400, st, [])).
Proof. intros. by apply checkout_first_failure with (pre := pre) (post := post). Qed.

Lemma checkout_reports_first_failing_item_witness :
  create_payment_intent sqlite_integer gateway_ok "ORD-M0000001-CD34" "o2" (shop [])
    cart_ghost_then_short
  = (CheckoutError "Product not found: ghost" 400, shop [], []).
Proof.
  refine (proj1 (checkout_reports_first_failing_item sqlite_integer gateway_ok
                   "ORD-M0000001-CD34" "o2" (shop []) cart_ghost_then_short
                   [mkItem "p-mug" 3] (mkItem "ghost" 1) [mkItem "p-lamp" 9]
                   _ eq_refl _) eq_refl).
  - split; [discriminate | split; reflexivity].
  - constructor; [|constructor]. exists mug. split; [reflexivity | simpl; lia].
Defined.

(** The stock check of an earlier item comes before the product check of
    a later one: with three lamps asked for, one on the shelf, and then an
    id that names no product, the answer is the lamp's shortage. *)
Lemma checkout_stock_error_before_missing_id :
  fields_present cart_short_then_ghost
  /\ mkItem "ghost" 1 ∈ d_items cart_short_then_ghost
  /\ resolve (shop []) "ghost" = None
  /\ create_payment_intent sqlite_integer gateway_ok "ORD-M0000001-CD34" "o2" (shop [])
       cart_short_then_ghost
     = (CheckoutError "Insufficient stock for Lamp. Available: 1" 400,
        shop [], [])
  /\ create_payment_intent sqlite_integer gateway_ok "ORD-M0000001-CD34" "o2" (shop [])
       cart_short_then_ghost
     <> (CheckoutError "Product not found: ghost" 400, shop [], []).
Proof.
  split_and!.
  - split; [discriminate | split; reflexivity].
  - apply list_elem_of_In. simpl. auto.
  - reflexivity.
  - vm_compute. reflexivity.
  - vm_compute. discriminate.
Qed.

(** C4. A checkout that fails validation (no item, no name, no email, an
    id that resolves to no visible product, a quantity above the stock) is
    answered with an error of status 400, the store is returned as it was
    and the gateway is not called.  The error is the one of the failure:
    the missing fields when there are any, and otherwise the missing id or
    the shortage of an item of the list that does fail. *)
Theorem failed_checkout_persists_nothing :
  forall fits gw n id (st : Store) (data : CheckoutData),
    fails_validation st data ->
    exists msg,
      create_payment_intent fits gw n id st data = (CheckoutError msg 400, st, [])
      /\ ((~ fields_present data /\ msg = "Missing required fields")
          \/ (fields_present data
              /\ exists it, it ∈ d_items data
                  /\ ((resolve st (item_id it) = None
                       /\ msg = "Product not found: " ++ item_id it)
                      \/ (exists p, short_of_stock st it p
                          /\ msg = "Insufficient stock for " ++ name p
                                   ++ ". Available: " ++ str_int (stock p))))).
Proof.
  intros fits gw n id st data Hfail.
  destruct (fields_present_dec data) as [Hf|Hn].
  - assert (Hbad : ~ Forall (in_stock st) (d_items data)).
    { intros Hall. rewrite Forall_forall in Hall.
      destruct Hf as (Hi & Hname & Hmail).
      destruct Hfail as [?|[?|[?|[(it & Hin & Hr)|(it & p & Hin & Hs)]]]];
        [congruence..| |].
      - apply (in_stock_resolves st it); [by apply Hall | exact Hr].
      - apply (in_stock_not_short st it p); [by apply Hall | exact Hs]. }
    destruct (first_failure _ _ Hbad) as (pre & it & post & Hits & Hpre & Hit).
    destruct (checkout_first_failure fits gw n id st data pre it post Hf Hits Hpre)
      as [Hnone Hshort].
    assert (Hin : it ∈ d_items data).
    { rewrite Hits. apply elem_of_app. right. left. }
    destruct Hit as [Hr|(p & Hp)].
    + exists (not_found_msg it). split; [by apply Hnone|].
      right. split; [done|]. exists it. split; [done|]. by left.
    + exists (insufficient_msg p). split; [by apply Hshort|].
      right. split; [done|]. exists it. split; [done|]. right. by exists p.
  - exists "Missing required fields". split; [by apply checkout_missing_fields|].
    by left.
Qed.

Lemma failed_checkout_persists_nothing_witness :
  exists msg,
    create_payment_intent sqlite_integer gateway_ok "ORD-M0000001-CD34" "o2"
      (shop [mugs_order "PAID" (Some "pi_1")]) cart_short_then_ghost
    = (CheckoutError msg 400, shop [mugs_order "PAID" (Some "pi_1")], []).
Proof.
  destruct (failed_checkout_persists_nothing sqlite_integer gateway_ok "ORD-M0000001-CD34"
              "o2" (shop [mugs_order "PAID" (Some "pi_1")])
              cart_short_then_ghost) as (msg & Hmsg & _).
  - right. right. right. left. exists (mkItem "ghost" 1). split.
    + apply list_elem_of_In. simpl. auto.
    + reflexivity.
  - exists msg. exact Hmsg.
Defined.

Lemma validate_items_checkout st data :
  passes_validation st data ->
  validate_items (product_map (products st) (map item_id (d_items data)))
    (d_items data) 0 []
  = inr (items_subtotal st (d_items data), map (snapshot st) (d_items data)).
Proof.
  intros [_ Hall].
  rewrite (validate_items_accepts st) by (auto using product_map_items).
  reflexivity.
Qed.

(** ** What an accepted checkout is *)

Lemma fields_present_of_check data :
  bool_decide (d_items data = [])
  || negb (truthy_opt (c_name (d_customer data)))
  || negb (truthy_opt (c_email (d_customer data))) = false ->
  fields_present data.
Proof.
  intros Hc. destruct (fields_present_dec data) as [|Hn]; [done|].
  rewrite (fields_absent_check _ Hn) in Hc. done.
Qed.

Lemma create_payment_intent_ok fits gw n id st data secret num oid st' asked :
  create_payment_intent fits gw n id st data = (CheckoutOk secret num oid, st', asked) ->
  exists intent,
    passes_validation st data
    /\ gw (items_subtotal st (d_items data) + settings_fee st)
          (settings_currency st) id n = Some intent
    /\ (forall o', o' ∈ orders st ->
                   stripe_payment_intent_id o' <> Some (intent_id intent))
    /\ secret = client_secret intent /\ num = n /\ oid = id
    /\ st' = set_orders st (orders st ++ [new_order id n st data intent])%list
    /\ asked = [PaymentIntentCreate
                  (items_subtotal st (d_items data) + settings_fee st)
                  (settings_currency st) id n].
Proof.
  unfold create_payment_intent.
  destruct (_ || _) eqn:Hc; [done|].
  apply fields_present_of_check in Hc.
  destruct (validate_items _ _ _ _) as [msg|[sub ois]] eqn:Hv; [done|].
  assert (Hall : Forall (in_stock st) (d_items data)).
  { eapply (validate_items_accepted st); [|exact Hv].
    auto using product_map_items. }
  rewrite (validate_items_accepts st) in Hv
    by (auto using product_map_items).
  injection Hv as <- <-.
  destruct (flush_conflict _ _ || _); [done|].
  fold (settings_fee st). fold (settings_currency st).
  destruct (gw _ _ _ _) as [intent|] eqn:Hgw; [|done].
  destruct (commit_conflict _ _ || _) eqn:Hcc; [done|].
  apply orb_false_iff in Hcc as [Hcc Hfit].
  intros [= <- <- <- <- <-]. exists intent.
  split_and!; try done.
  apply (commit_conflict_false _ _ Hcc).
Qed.

(** C8. Whenever a checkout that passes validation creates an order, that
    order is the one appended to the ledger: its subtotal is the sum over
    the items of unit price × quantity at the prices of the visible
    products, its shipping cost is the fee of the settings (500 without
    settings), its total is subtotal + shipping cost, and the gateway was
    asked for that total in the currency of the settings ("usd" without
    settings). *)
Theorem checkout_totals :
  forall fits gw n id (st : Store) (data : CheckoutData) secret num oid st'
         asked,
    passes_validation st data ->
    create_payment_intent fits gw n id st data
    = (CheckoutOk secret num oid, st', asked) ->
    exists o,
      st' = set_orders st (orders st ++ [o])%list
      /\ asked = [PaymentIntentCreate (total o) (settings_currency st) id n]
      /\ subtotal o = items_subtotal st (d_items data)
      /\ total o = subtotal o + shipping_cost o
      /\ items o = map (snapshot st) (d_items data)
      /\ (forall s, settings st = Some s ->
                    shipping_cost o = shipping_fee s
                    /\ settings_currency st = currency s)
      /\ (settings st = None ->
          shipping_cost o = 500 /\ settings_currency st = "usd").
Proof.
  intros fits gw n id st data secret num oid st' asked _ Hrun.
  apply create_payment_intent_ok in Hrun
    as (intent & _ & _ & _ & _ & _ & _ & -> & ->).
  exists (new_order id n st data intent).
  unfold new_order, settings_fee, settings_currency. simpl.
  split_and!; try reflexivity.
  - intros s Hs. by rewrite Hs.
  - intros Hs. by rewrite Hs.
Qed.

Lemma checkout_totals_witness :
  exists o,
    shop [mugs_order "PAID" (Some "pi_1"); mugs_and_lamp_order]
    = set_orders (shop [mugs_order "PAID" (Some "pi_1")])
        (orders (shop [mugs_order "PAID" (Some "pi_1")]) ++ [o])%list
    /\ subtotal o = 5500 /\ shipping_cost o = 450 /\ total o = 5950.
Proof.
  destruct (checkout_totals sqlite_integer gateway_ok "ORD-M0000001-CD34" "o2"
              (shop [mugs_order "PAID" (Some "pi_1")]) cart_mugs_and_lamp
              "pi_9_secret" "ORD-M0000001-CD34" "o2"
              (shop [mugs_order "PAID" (Some "pi_1"); mugs_and_lamp_order])
              [PaymentIntentCreate 5950 "eur" "o2" "ORD-M0000001-CD34"])
    as (o & Hst & _ & Hsub & Htot & _ & Hset & _).
  - split; [split; [discriminate | split; reflexivity]|].
    constructor; [|constructor; [|constructor]].
    + exists mug. split; [reflexivity | simpl; lia].
    + exists lamp. split; [reflexivity | simpl; lia].
  - reflexivity.
  - destruct (Hset eur eq_refl) as [Hfee _].
    exists o. rewrite Htot, Hsub, Hfee in *. auto.
Defined.

(** C9, as the handler has it.  Every item persisted by an accepted
    checkout names a visible product and has a quantity no greater than
    the stock of that product; no lower bound is checked. *)
Theorem accepted_quantities_within_stock :
  forall fits gw n id (st : Store) (data : CheckoutData) secret num oid st' asked,
    create_payment_intent fits gw n id st data = (CheckoutOk secret num oid, st', asked) ->
    exists o,
      st' = set_orders st (orders st ++ [o])%list
      /\ Forall (fun oi => exists pid p,
                   product_id oi = Some pid /\ resolve st pid = Some p
                   /\ quantity oi <= stock p) (items o).
Proof.
  intros fits gw n id st data secret num oid st' asked.
  unfold create_payment_intent.
  destruct (_ || _); [done|].
  destruct (validate_items _ _ _ _) as [msg|[sub ois]] eqn:Hv; [done|].
  assert (Hall : Forall (in_stock st) (d_items data)).
  { eapply (validate_items_accepted st); [|exact Hv].
    auto using product_map_items. }
  rewrite (validate_items_accepts st) in Hv
    by (auto using product_map_items).
  injection Hv as <- <-.
  destruct (flush_conflict _ _ || _); [done|].
  destruct (gw _ _ _ _) as [intent|]; [|done].
  destruct (commit_conflict _ _ || _); [done|].
  intros [= <- <- <- <- <-]. eexists. split; [reflexivity|]. simpl.
  apply Forall_map. eapply Forall_impl; [exact Hall|].
  intros it (p & Hp & Hle). exists (item_id it), p.
  unfold snapshot. rewrite Hp. done.
Qed.

Lemma accepted_quantities_within_stock_witness :
  exists o,
    shop [mugs_and_lamp_order] = set_orders (shop []) (orders (shop []) ++ [o])%list
    /\ Forall (fun oi => exists pid p,
                 product_id oi = Some pid /\ resolve (shop []) pid = Some p
                 /\ quantity oi <= stock p) (items o).
Proof.
  exact (accepted_quantities_within_stock sqlite_integer gateway_ok "ORD-M0000001-CD34" "o2"
           (shop []) cart_mugs_and_lamp "pi_9_secret" "ORD-M0000001-CD34" "o2"
           (shop [mugs_and_lamp_order])
           [PaymentIntentCreate 5950 "eur" "o2" "ORD-M0000001-CD34"]
           eq_refl).
Defined.

(** A quantity of zero and a negative quantity pass the stock check and
    are persisted. *)
Lemma nonpositive_quantity_persisted :
  create_payment_intent sqlite_integer gateway_ok "ORD-M0000001-CD34" "o2" (shop [])
    cart_no_lamp
  = (CheckoutOk "pi_9_secret" "ORD-M0000001-CD34" "o2",
     shop [mkOrder "o2" "ORD-M0000001-CD34" "PENDING" "Alice"
             "alice@example.com" "{}" 1500 450 1950 (Some "pi_9") false false
             [mkOrderItem 0 2500 "Lamp" (Some "p-lamp");
              mkOrderItem (-1) 2500 "Lamp" (Some "p-lamp");
              mkOrderItem 4 1000 "Mug" (Some "p-mug")]],
     [PaymentIntentCreate 1950 "eur" "o2" "ORD-M0000001-CD34"])
  /\ ~ Forall (fun oi => 1 <= quantity oi)
       [mkOrderItem 0 2500 "Lamp" (Some "p-lamp");
        mkOrderItem (-1) 2500 "Lamp" (Some "p-lamp");
        mkOrderItem 4 1000 "Mug" (Some "p-mug")].
Proof.
  split.
  - vm_compute. reflexivity.
  - intros H. apply Forall_cons in H as [H _]. simpl in H. lia.
Qed.

(** ** Refund *)

Lemma set_stock_same (o : option Product) :
  (fun p => set_stock p (stock p + 0)) <$> o = o.
Proof.
  destruct o as [[nm pr sk vs]|]; [|done]. simpl. unfold set_stock. simpl.
  by rewrite Z.add_0_r.
Qed.

Lemma restock_lookup ps item pid :
  restock ps item !! pid
  = (fun p => set_stock p
       (stock p + if truthy pid
                  then if decide (product_id item = Some pid)
                       then quantity item else 0
                  else 0)) <$> ps !! pid.
Proof.
  unfold restock.
  destruct (product_id item) as [q|]; cycle 1.
  { rewrite decide_False by done. destruct (truthy pid); by rewrite set_stock_same. }
  destruct (decide (q = pid)) as [->|Hne].
  - rewrite decide_True by done.
    destruct (truthy pid); [|by rewrite set_stock_same].
    destruct (ps !! pid) as [p|] eqn:E; simpl.
    + by rewrite lookup_insert_eq.
    + by rewrite E.
  - rewrite decide_False by congruence.
    assert (Hsame :
      (fun p => set_stock p (stock p + if truthy pid then 0 else 0)) <$> ps !! pid
      = ps !! pid) by (destruct (truthy pid); apply set_stock_same).
    rewrite Hsame.
    destruct (truthy q); [|done].
    destruct (ps !! q) as [p|]; [|done].
    by rewrite lookup_insert_ne.
Qed.

Lemma restock_all_lookup its :
  forall ps pid,
    restock_all its ps !! pid
    = (fun p => set_stock p
         (stock p + if truthy pid then restocked pid its else 0))
      <$> ps !! pid.
Proof.
  unfold restock_all.
  induction its as [|it its IH]; intros ps pid; simpl.
  - destruct (truthy pid); by rewrite set_stock_same.
  - rewrite IH, restock_lookup.
    destruct (ps !! pid) as [p|]; [|done]. simpl. unfold set_stock. simpl.
    f_equal. f_equal. destruct (truthy pid); lia.
Qed.

Section Refund.
Variables (refund_create : string -> Call) (st : Store) (id : string).
Variables (i : nat) (o : Order).
Hypothesis found : order_by_id id (orders st) = Some (i, o).

Lemma order_refund_no_payment :
  truthy_opt (stripe_payment_intent_id o) = false ->
  order_refund refund_create st id
  = (RefundRedirect "No payment to refund" "error", st, []).
Proof using found.
  intros Hpi. unfold order_refund. by rewrite found, Hpi.
Qed.

Lemma order_refund_already :
  truthy_opt (stripe_payment_intent_id o) = true ->
  status o = "REFUNDED" ->
  order_refund refund_create st id
  = (RefundRedirect "Already refunded" "error", st, []).
Proof using found.
  intros Hpi Hs. unfold order_refund. rewrite found, Hpi. simpl.
  by rewrite decide_True.
Qed.

Lemma order_refund_called pi :
  stripe_payment_intent_id o = Some pi -> truthy pi = true ->
  status o <> "REFUNDED" ->
  order_refund refund_create st id
  = match refund_create pi with
    | Raises e =>
        (RefundRedirect ("Refund failed: " ++ e) "error", st, [RefundCreate pi])
    | Returns =>
        (RefundRedirect "Refund issued successfully" "success",
         mkStore (restock_all (items o) (products st))
           (<[i := set_status o "REFUNDED"]> (orders st)) (settings st),
         [RefundCreate pi])
    end.
Proof using found.
  intros Hpi Ht Hs. unfold order_refund. rewrite found, Hpi. simpl.
  rewrite Ht. simpl. by rewrite decide_False.
Qed.
End Refund.

(** C5. A refund of an order without a payment-intent reference is turned
    down, and so is a refund of an order that is already REFUNDED; when the
    gateway's refund call raises, the refund is given up and the message of
    the failure is flashed.  In all three cases the store is returned as it
    was: statuses, notification flags and stocks are unchanged. *)
Theorem refund_rejected_without_change :
  forall refund_create (st : Store) id i o,
    order_by_id id (orders st) = Some (i, o) ->
    (truthy_opt (stripe_payment_intent_id o) = false ->
     order_refund refund_create st id
     = (RefundRedirect "No payment to refund" "error", st, []))
    /\ (status o = "REFUNDED" ->
        order_refund refund_create st id
        = (RefundRedirect
             (if truthy_opt (stripe_payment_intent_id o)
              then "Already refunded" else "No payment to refund")
             "error", st, []))
    /\ (forall pi msg,
          stripe_payment_intent_id o = Some pi -> truthy pi = true ->
          status o <> "REFUNDED" ->
          refund_create pi = Raises msg ->
          order_refund refund_create st id
          = (RefundRedirect ("Refund failed: " ++ msg) "error", st,
             [RefundCreate pi])).
Proof.
  intros rc st id i o Hf. split_and!.
  - by apply order_refund_no_payment with (i := i).
  - intros Hs. destruct (truthy_opt _) eqn:Hpi.
    + by apply order_refund_already with (i := i) (o := o).
    + by apply order_refund_no_payment with (i := i) (o := o).
  - intros pi msg Hpi Ht Hs Hrc.
    rewrite (order_refund_called rc st id i o Hf pi Hpi Ht Hs). by rewrite Hrc.
Qed.

Lemma refund_rejected_without_change_witness :
  order_refund refund_ok (shop [mugs_order "PAID" None]) "o1"
  = (RefundRedirect "No payment to refund" "error",
     shop [mugs_order "PAID" None], [])
  /\ order_refund refund_ok (shop [mugs_order "REFUNDED" (Some "pi_1")]) "o1"
     = (RefundRedirect "Already refunded" "error",
        shop [mugs_order "REFUNDED" (Some "pi_1")], [])
  /\ order_refund refund_down (shop [mugs_order "PAID" (Some "pi_1")]) "o1"
     = (RefundRedirect "Refund failed: card network down" "error",
        shop [mugs_order "PAID" (Some "pi_1")], [RefundCreate "pi_1"]).
Proof.
  split_and!.
  - exact (proj1 (refund_rejected_without_change refund_ok
                    (shop [mugs_order "PAID" None]) "o1" 0%nat
                    (mugs_order "PAID" None) eq_refl) eq_refl).
  - exact (proj1 (proj2 (refund_rejected_without_change refund_ok
                    (shop [mugs_order "REFUNDED" (Some "pi_1")]) "o1" 0%nat
                    (mugs_order "REFUNDED" (Some "pi_1")) eq_refl)) eq_refl).
  - refine (proj2 (proj2 (refund_rejected_without_change refund_down
                    (shop [mugs_order "PAID" (Some "pi_1")]) "o1" 0%nat
                    (mugs_order "PAID" (Some "pi_1")) eq_refl))
              "pi_1" "card network down" eq_refl eq_refl _ eq_refl).
    discriminate.
Defined.



(** ** Status change *)

Lemma set_status_same o : set_status o (status o) = o.
Proof. by destruct o. Qed.

Lemma order_status_shipped r st id i o :
  order_by_id id (orders st) = Some (i, o) ->
  order_status r st id (Some "SHIPPED")
  = if shipping_notified o then
      (StatusForm (set_status o "SHIPPED"),
       set_orders st (<[i := set_status o "SHIPPED"]> (orders st)), [])
    else
      (StatusForm (if r then set_status o "SHIPPED"
                   else set_shipping_notified (set_status o "SHIPPED") true),
       set_orders st
         (<[i := if r then set_status o "SHIPPED"
                 else set_shipping_notified (set_status o "SHIPPED") true]>
            (orders st)),
       [send_shipping_notification (set_status o "SHIPPED")]).
Proof.
  intros Hf. unfold order_status. rewrite Hf.
  rewrite decide_True by (unfold valid; set_solver).
  rewrite bool_decide_eq_true_2 by done. simpl.
  by destruct (shipping_notified o).
Qed.

(** C7, as the handler has it.  Setting SHIPPED on an order whose
    shipping_notified flag is false asks for the shipping mail once.  When
    the send returns, the flag becomes true, and setting SHIPPED again
    changes nothing and asks for no mail; when the send raises, the status
    is SHIPPED all the same and the flag stays false. *)
Theorem shipped_notifies_once :
  forall (st : Store) id i o r1,
    order_by_id id (orders st) = Some (i, o) ->
    shipping_notified o = false ->
    exists o1,
      order_status r1 st id (Some "SHIPPED")
      = (StatusForm o1, set_orders st (<[i := o1]> (orders st)),
         [send_shipping_notification (set_status o "SHIPPED")])
      /\ status o1 = "SHIPPED"
      /\ shipping_notified o1 = negb r1
      /\ (r1 = false ->
          forall r2,
            order_status r2 (set_orders st (<[i := o1]> (orders st))) id
              (Some "SHIPPED")
            = (StatusForm o1, set_orders st (<[i := o1]> (orders st)), [])).
Proof.
  intros st id i o r1 Hf Hflag.
  rewrite (order_status_shipped r1 st id i o Hf), Hflag.
  eexists. split; [reflexivity|].
  split_and!; [by destruct r1 | by destruct r1; rewrite ?Hflag |].
  intros -> r2.
  set (o1 := set_shipping_notified (set_status o "SHIPPED") true).
  assert (Hf1 : order_by_id id (<[i := o1]> (orders st)) = Some (i, o1)).
  { apply order_by_id_insert with (o := o); [done|].
    by apply order_by_id_Some in Hf as [_ Hid]. }
  rewrite (order_status_shipped r2 (set_orders st (<[i := o1]> (orders st)))
             id i o1 Hf1). simpl.
  change (set_status o1 "SHIPPED") with (set_status o1 (status o1)).
  rewrite set_status_same. unfold set_orders. simpl.
  by rewrite list_insert_insert_eq.
Qed.

Lemma shipped_notifies_once_witness :
  exists o1,
    order_status false (shop [mugs_order "PAID" (Some "pi_1")]) "o1"
      (Some "SHIPPED")
    = (StatusForm o1, shop [o1],
       [SendEmail "Your Order Has Shipped - ORD-M0000000-AB12"
          "alice@example.com" "emails/shipping_update.html"])
    /\ shipping_notified o1 = true
    /\ order_status false (shop [o1]) "o1" (Some "SHIPPED")
       = (StatusForm o1, shop [o1], []).
Proof.
  destruct (shipped_notifies_once (shop [mugs_order "PAID" (Some "pi_1")])
              "o1" 0%nat (mugs_order "PAID" (Some "pi_1")) false
              eq_refl eq_refl) as (o1 & Hrun & _ & Hflag & Hagain).
  exists o1. split_and!; [exact Hrun | exact Hflag | exact (Hagain eq_refl false)].
Defined.

(** When the send raises, the flag stays false, and the next change to
    SHIPPED asks for the mail a second time. *)
Lemma shipped_flag_stays_false_when_mail_raises :
  order_status true (shop [mugs_order "PAID" (Some "pi_1")]) "o1"
    (Some "SHIPPED")
  = (StatusForm (mugs_order "SHIPPED" (Some "pi_1")),
     shop [mugs_order "SHIPPED" (Some "pi_1")],
     [send_shipping_notification (mugs_order "SHIPPED" (Some "pi_1"))])
  /\ shipping_notified (mugs_order "SHIPPED" (Some "pi_1")) = false
  /\ snd (order_status false (shop [mugs_order "SHIPPED" (Some "pi_1")]) "o1"
            (Some "SHIPPED"))
     = [send_shipping_notification (mugs_order "SHIPPED" (Some "pi_1"))].
Proof. split_and!; vm_compute; reflexivity. Qed.

(** ** Dashboard *)

Lemma fold_left_add_from (l : list Z) :
  forall a, fold_left Z.add l a = a + fold_left Z.add l 0.
Proof.
  induction l as [|x l IH]; intros a; cbn [fold_left]; [lia|].
  rewrite (IH (a + x)), (IH (0 + x)). lia.
Qed.

Lemma sum_cons x l : sum (x :: l) = x + sum l.
Proof. unfold sum. simpl. apply fold_left_add_from. Qed.

Lemma counts_as_revenue_true o :
  counts_as_revenue o = true
  <-> status o <> "PENDING" /\ status o <> "CANCELLED".
Proof.
  unfold counts_as_revenue.
  rewrite andb_true_iff, !negb_true_iff, !String.eqb_neq. done.
Qed.

Lemma counts_as_revenue_paid o :
  counts_as_revenue o = true <-> status o ∉ ["PENDING"; "CANCELLED"].
Proof.
  rewrite counts_as_revenue_true, !not_elem_of_cons. split.
  - intros [? ?]. split_and!; [done..|apply not_elem_of_nil].
  - intros (? & ? & _). done.
Qed.

Lemma total_revenue_orders os :
  sum (map total (paid_orders os)) = revenue os.
Proof.
  unfold paid_orders. induction os as [|o os IH]; [done|].
  rewrite filter_cons. simpl.
  destruct (counts_as_revenue o) eqn:Hc.
  - rewrite decide_True by (by apply counts_as_revenue_paid).
    simpl. by rewrite sum_cons, IH.
  - rewrite decide_False; [by rewrite IH|].
    intros Hp%counts_as_revenue_paid. congruence.
Qed.




(** * Further properties of the handlers *)


(** ** The webhook: what it refuses, what it ignores, what it changes *)

(** X1. A delivery without a signature, with an empty one, or with one the
    gateway library does not accept is answered with status 400; the store
    is returned as it was and no mail is asked for. *)
Theorem webhook_rejects_unsigned :
  forall verify r (st : Store) payload sig,
    (truthy_opt sig = false ->
     stripe_webhook verify r st payload sig
     = (WebhookError "Missing signature" 400, st, []))
    /\ (truthy_opt sig = true -> verify payload (default "" sig) = None ->
        stripe_webhook verify r st payload sig
        = (WebhookError "Invalid signature" 400, st, [])).
Proof.
  intros verify r st payload sig. unfold stripe_webhook. split.
  - by intros ->.
  - by intros -> ->.
Qed.

Lemma webhook_rejects_unsigned_witness :
  stripe_webhook verify_ok false (shop [mugs_order "PENDING" (Some "pi_1")])
    "pi_1" (Some "")
  = (WebhookError "Missing signature" 400,
     shop [mugs_order "PENDING" (Some "pi_1")], [])
  /\ stripe_webhook verify_ok false (shop [mugs_order "PENDING" (Some "pi_1")])
       "pi_1" (Some "t=1,v1=forged")
     = (WebhookError "Invalid signature" 400,
        shop [mugs_order "PENDING" (Some "pi_1")], []).
Proof.
  split.
  - exact (proj1 (webhook_rejects_unsigned verify_ok false
                    (shop [mugs_order "PENDING" (Some "pi_1")]) "pi_1"
                    (Some "")) eq_refl).
  - exact (proj2 (webhook_rejects_unsigned verify_ok false
                    (shop [mugs_order "PENDING" (Some "pi_1")]) "pi_1"
                    (Some "t=1,v1=forged")) eq_refl eq_refl).
Defined.



(** X3. Whatever is delivered, the webhook keeps the settings and the
    number of orders, and every order stays as it was or, if it was
    PENDING, becomes PAID with at most its confirmation flag set: ids,
    totals, items, references and the shipping flag are never touched, and
    no order leaves a status other than PENDING. *)
Theorem webhook_moves_pending_to_paid_only :
  forall verify r (st : Store) payload sig,
    let st' := snd (fst (stripe_webhook verify r st payload sig)) in
    settings st' = settings st
    /\ length (orders st') = length (orders st)
    /\ forall j o, orders st !! j = Some o ->
         exists o', orders st' !! j = Some o'
           /\ (o' = o
               \/ (status o = "PENDING"
                   /\ (o' = set_status o "PAID"
                       \/ o' = set_confirmation_sent (set_status o "PAID") true))).
Proof.
  intros verify r st payload sig. unfold stripe_webhook.
  assert (Hsame : settings st = settings st
    /\ length (orders st) = length (orders st)
    /\ forall j o, orders st !! j = Some o ->
         exists o', orders st !! j = Some o'
           /\ (o' = o
               \/ (status o = "PENDING"
                   /\ (o' = set_status o "PAID"
                       \/ o' = set_confirmation_sent (set_status o "PAID") true))))
    by (split_and!; [done..|]; intros j o Hj; exists o; auto).
  destruct (negb (truthy_opt sig)); [exact Hsame|].
  destruct (verify _ _) as [ev|]; [|exact Hsame].
  destruct (decide _); [|exact Hsame].
  destruct (order_by_intent _ _) as [[i o]|] eqn:Hf; [|exact Hsame].
  destruct (decide _) as [Hpend|]; [|exact Hsame].
  apply order_by_intent_Some in Hf as [Hi _]. simpl. split_and!.
  - done.
  - by rewrite length_insert.
  - intros j x Hj. destruct (decide (i = j)) as [<-|Hne].
    + rewrite list_lookup_insert_eq by (by eapply lookup_lt_Some).
      rewrite Hi in Hj. injection Hj as <-.
      eexists. split; [reflexivity|]. right. split; [done|].
      destruct r; auto.
    + rewrite list_lookup_insert_ne by done. exists x. auto.
Qed.

Lemma webhook_moves_pending_to_paid_only_witness :
  exists o',
    orders (snd (fst (stripe_webhook verify_ok true
                        (shop [mugs_order "PENDING" (Some "pi_1")]) "pi_1"
                        (Some "t=1,v1=ok")))) !! 0%nat = Some o'
    /\ (o' = mugs_order "PENDING" (Some "pi_1")
        \/ (status (mugs_order "PENDING" (Some "pi_1")) = "PENDING"
            /\ (o' = set_status (mugs_order "PENDING" (Some "pi_1")) "PAID"
                \/ o' = set_confirmation_sent
                          (set_status (mugs_order "PENDING" (Some "pi_1")) "PAID")
                          true))).
Proof.
  exact (proj2 (proj2 (webhook_moves_pending_to_paid_only verify_ok true
                         (shop [mugs_order "PENDING" (Some "pi_1")]) "pi_1"
                         (Some "t=1,v1=ok")))
           0%nat (mugs_order "PENDING" (Some "pi_1")) eq_refl).
Defined.

(** ** Stock over payment and refund *)

Lemma set_stock_stock (o : option Product) :
  (fun p => set_stock p (stock p)) <$> o = o.
Proof. by destruct o as [[nm pr sk vs]|]. Qed.

Lemma decrement_stock_lookup_any ps item pid :
  decrement_stock ps item !! pid
  = (fun p => set_stock p
       (if truthy pid && bool_decide (product_id item = Some pid)
        then Z.max 0 (stock p - quantity item) else stock p)) <$> ps !! pid.
Proof.
  unfold decrement_stock.
  destruct (product_id item) as [q|]; cycle 1.
  { rewrite bool_decide_eq_false_2, andb_false_r by done.
    by rewrite set_stock_stock. }
  destruct (decide (q = pid)) as [->|Hne].
  - rewrite bool_decide_eq_true_2, andb_true_r by done.
    destruct (truthy pid); [|by rewrite set_stock_stock].
    destruct (ps !! pid) as [p|] eqn:E; simpl.
    + by rewrite lookup_insert_eq.
    + by rewrite E.
  - rewrite bool_decide_eq_false_2, andb_false_r by congruence.
    rewrite set_stock_stock.
    destruct (truthy q); [|done].
    destruct (ps !! q) as [p|]; [|done].
    by rewrite lookup_insert_ne.
Qed.

Lemma restocked_nonneg pid its :
  Forall (fun it => 0 <= quantity it) its -> 0 <= restocked pid its.
Proof.
  induction 1 as [|it its Hq _ IH]; simpl; [lia|].
  destruct (decide _); lia.
Qed.

(** What the stock of [pid] becomes over the decrement loop: a function
    of the stock before, never below stock - quantities, and exactly that
    when nothing is clamped. *)
Lemma decrement_all_lookup its pid :
  exists f : Z -> Z,
    (forall ps, decrement_all its ps !! pid
                = (fun p => set_stock p (f (stock p))) <$> ps !! pid)
    /\ (forall s, s - (if truthy pid then restocked pid its else 0) <= f s)
    /\ (Forall (fun it => 0 <= quantity it) its ->
        forall s, (if truthy pid then restocked pid its else 0) <= s ->
                  f s = s - (if truthy pid then restocked pid its else 0)).
Proof.
  unfold decrement_all.
  induction its as [|it its (f & Hlook & Hlow & Hexact)]; simpl.
  - exists (fun s => s). split_and!.
    + intros ps. by rewrite set_stock_stock.
    + intros s. destruct (truthy pid); lia.
    + intros _ s _. destruct (truthy pid); lia.
  - exists (fun s =>
              f (if truthy pid && bool_decide (product_id it = Some pid)
                 then Z.max 0 (s - quantity it) else s)).
    split_and!.
    + intros ps. rewrite Hlook, decrement_stock_lookup_any.
      by destruct (ps !! pid).
    + intros s. destruct (truthy pid); simpl.
      * destruct (decide _).
        -- rewrite bool_decide_eq_true_2 by done.
           pose proof (Hlow (Z.max 0 (s - quantity it))). lia.
        -- rewrite bool_decide_eq_false_2 by done.
           pose proof (Hlow s). lia.
      * pose proof (Hlow s). lia.
    + intros [Hq Hrest]%Forall_cons s Hs.
      pose proof (restocked_nonneg pid its Hrest) as Hr.
      destruct (truthy pid); simpl in *.
      * destruct (decide _).
        -- rewrite bool_decide_eq_true_2 by done.
           rewrite Hexact by (done || lia). lia.
        -- rewrite bool_decide_eq_false_2 by done.
           rewrite Hexact by (done || lia). lia.
      * rewrite Hexact by done. lia.
Qed.

Lemma pay_refund_lookup its ps pid :
  exists g : Z -> Z,
    restock_all its (decrement_all its ps) !! pid
    = (fun p => set_stock p (g (stock p))) <$> ps !! pid
    /\ (forall s, s <= g s)
    /\ (Forall (fun it => 0 <= quantity it) its ->
        forall s, restocked pid its <= s -> g s = s).
Proof.
  destruct (decrement_all_lookup its pid) as (f & Hlook & Hlow & Hexact).
  exists (fun s => f s + if truthy pid then restocked pid its else 0).
  split_and!.
  - rewrite restock_all_lookup, Hlook. by destruct (ps !! pid).
  - intros s. pose proof (Hlow s). lia.
  - intros Hq s Hs. pose proof (restocked_nonneg pid its Hq).
    rewrite Hexact; [lia|done|]. destruct (truthy pid); lia.
Qed.





Section PayThenRefund.
Variable verify : string -> string -> option Event.
Variable refund_create : string -> Call.
Variables (r : bool) (st : Store) (payload sig : string) (ev : Event).
Variables (i : nat) (o : Order).
Hypothesis signed : truthy sig = true.
Hypothesis verified : verify payload sig = Some ev.
Hypothesis is_succeeded : ev_type ev = "payment_intent.succeeded".
Hypothesis by_intent : order_by_intent (ev_intent ev) (orders st) = Some (i, o).
Hypothesis by_id : order_by_id (order_id o) (orders st) = Some (i, o).
Hypothesis pending : status o = "PENDING".
Hypothesis has_reference : truthy (ev_intent ev) = true.
Hypothesis refunded : refund_create (ev_intent ev) = Returns.

Lemma pay_then_refund_store :
  exists o',
    snd (fst (order_refund refund_create
                (snd (fst (stripe_webhook verify r st payload (Some sig))))
                (order_id o)))
    = mkStore (restock_all (items o) (decrement_all (items o) (products st)))
        (<[i := o']> (orders st)) (settings st)
    /\ status o' = "REFUNDED".
Proof using All.
  rewrite (stripe_webhook_found verify payload sig ev st signed verified
             is_succeeded r i o by_intent).
  rewrite decide_True by exact pending. simpl.
  set (sent := if r then _ else _).
  assert (Hpi : stripe_payment_intent_id sent = Some (ev_intent ev)).
  { apply order_by_intent_Some in by_intent as [_ Hpi]. by destruct r. }
  assert (Hid : order_id sent = order_id o) by (by destruct r).
  assert (Hits : items sent = items o) by (by destruct r).
  assert (Hst : status sent <> "REFUNDED") by (by destruct r).
  rewrite (order_refund_called refund_create _ (order_id o) i sent)
    with (pi := ev_intent ev); try done.
  - rewrite refunded. simpl. rewrite Hits, list_insert_insert_eq.
    by eexists.
  - simpl. by apply order_by_id_insert with (o := o).
Qed.
End PayThenRefund.

(** X5. Paying a PENDING order and then refunding it puts every stock back
    where it was, provided no quantity of the order is negative and, for
    every product on the shelf, the quantities of the items that refer to
    it do not exceed its stock (so that nothing was clamped). *)
Theorem pay_then_refund_restores_stock :
  forall verify refund_create r (st : Store) payload sig ev i o,
    truthy sig = true -> verify payload sig = Some ev ->
    ev_type ev = "payment_intent.succeeded" ->
    order_by_intent (ev_intent ev) (orders st) = Some (i, o) ->
    order_by_id (order_id o) (orders st) = Some (i, o) ->
    status o = "PENDING" ->
    truthy (ev_intent ev) = true ->
    refund_create (ev_intent ev) = Returns ->
    Forall (fun it => 0 <= quantity it) (items o) ->
    (forall pid p, products st !! pid = Some p ->
                   restocked pid (items o) <= stock p) ->
    products
      (snd (fst (order_refund refund_create
                   (snd (fst (stripe_webhook verify r st payload (Some sig))))
                   (order_id o))))
    = products st.
Proof.
  intros verify rc r st payload sig ev i o Hsig Hver Hty Hpi Hid Hpend Href
    Hrc Hq Hfits.
  destruct (pay_then_refund_store verify rc r st payload sig ev i o)
    as (o' & -> & _); try done.
  simpl. apply map_eq. intros pid.
  destruct (pay_refund_lookup (items o) (products st) pid)
    as (g & -> & _ & Hexact).
  destruct (products st !! pid) as [p|] eqn:Hp; [|done]. simpl.
  rewrite Hexact by eauto. by destruct p.
Qed.

Lemma pay_then_refund_restores_stock_witness :
  products
    (snd (fst (order_refund refund_ok
                 (snd (fst (stripe_webhook verify_ok false
                              (shop [mugs_order "PENDING" (Some "pi_1")])
                              "pi_1" (Some "t=1,v1=ok"))))
                 "o1")))
  = shelf.
Proof.
  refine (pay_then_refund_restores_stock verify_ok refund_ok false
            (shop [mugs_order "PENDING" (Some "pi_1")]) "pi_1" "t=1,v1=ok"
            (mkEvent "payment_intent.succeeded" "pi_1") 0%nat
            (mugs_order "PENDING" (Some "pi_1"))
            eq_refl eq_refl eq_refl eq_refl eq_refl eq_refl eq_refl eq_refl
            _ _).
  - constructor; [simpl; lia | constructor].
  - intros pid p Hp. simpl.
    destruct (decide (Some "p-mug" = Some pid)) as [[= <-]|_].
    + vm_compute in Hp. injection Hp as <-. simpl. lia.
    + assert (Hnn : stocks_nonneg shelf)
        by (unfold stocks_nonneg; apply (bool_decide_unpack _);
            vm_compute; exact I).
      pose proof (Hnn pid p Hp). simpl in *. lia.
Defined.



Lemma handlers_keep_products :
  forall verify r refund_create (st : Store) payload sig id pid,
    (fun p => (name p, price p, visible p))
      <$> products (snd (fst (stripe_webhook verify r st payload sig))) !! pid
    = (fun p => (name p, price p, visible p)) <$> products st !! pid
    /\ (fun p => (name p, price p, visible p))
         <$> products (snd (fst (order_refund refund_create st id))) !! pid
       = (fun p => (name p, price p, visible p)) <$> products st !! pid.
Proof.
  intros verify r rc st payload sig id pid. split.
  - unfold stripe_webhook.
    destruct (negb (truthy_opt sig)); [done|].
    destruct (verify _ _) as [ev|]; [|done].
    destruct (decide _); [|done].
    destruct (order_by_intent _ _) as [[i o]|]; [|done].
    destruct (decide _); [|done]. simpl.
    destruct (decrement_all_lookup (items o) pid) as (f & -> & _).
    by destruct (products st !! pid).
  - unfold order_refund.
    destruct (order_by_id _ _) as [[i o]|]; [|done].
    destruct (negb _); [done|].
    destruct (decide _); [done|].
    destruct (rc _); [|done]. simpl.
    rewrite restock_all_lookup. by destruct (products st !! pid).
Qed.

(** X7. Neither the webhook nor a refund adds, removes, renames, reprices
    or hides a product: over both, only the stock of a product changes. *)
Theorem only_stock_changes :
  forall verify r refund_create (st : Store) payload sig id pid,
    (fun p => (name p, price p, visible p))
      <$> products (snd (fst (stripe_webhook verify r st payload sig))) !! pid
    = (fun p => (name p, price p, visible p)) <$> products st !! pid
    /\ (fun p => (name p, price p, visible p))
         <$> products (snd (fst (order_refund refund_create st id))) !! pid
       = (fun p => (name p, price p, visible p)) <$> products st !! pid.
Proof. apply handlers_keep_products. Qed.

(** ** Status changes by the admin *)

(** X8. A status that is missing or not one of the six changes nothing and
    sends nothing: the form is rendered for the order as it is, or the
    answer is 404 when there is no such order. *)
Theorem order_status_rejects_unknown :
  forall r (st : Store) id new_status,
    (forall s, new_status = Some s -> s ∉ valid) ->
    order_status r st id new_status
    = (match order_by_id id (orders st) with
       | Some (_, o) => StatusForm o
       | None => StatusNotFound
       end, st, []).
Proof.
  intros r st id new_status Hbad. unfold order_status.
  destruct (order_by_id _ _) as [[i o]|]; [|done].
  destruct new_status as [s|]; [|done].
  rewrite decide_False; [done|]. by apply Hbad.
Qed.

Lemma order_status_rejects_unknown_witness :
  order_status false (shop [mugs_order "PAID" (Some "pi_1")]) "o1"
    (Some "shipped")
  = (StatusForm (mugs_order "PAID" (Some "pi_1")),
     shop [mugs_order "PAID" (Some "pi_1")], []).
Proof.
  refine (order_status_rejects_unknown false
            (shop [mugs_order "PAID" (Some "pi_1")]) "o1" (Some "shipped") _).
  intros s [= <-]. unfold valid. rewrite !not_elem_of_cons.
  split_and!; try discriminate. apply not_elem_of_nil.
Defined.

(** X9. Any of the six statuses is accepted from any status.  Except for
    SHIPPED, the change is the status alone and no mail is asked for: in
    particular REFUNDED and CANCELLED set by this form neither call the
    gateway nor give stock back. *)
Theorem order_status_accepts_any_valid :
  forall r (st : Store) id i o s,
    order_by_id id (orders st) = Some (i, o) ->
    s ∈ valid -> s <> "SHIPPED" ->
    order_status r st id (Some s)
    = (StatusForm (set_status o s),
       mkStore (products st) (<[i := set_status o s]> (orders st)) (settings st),
       []).
Proof.
  intros r st id i o s Hf Hv Hs. unfold order_status. rewrite Hf.
  rewrite decide_True by done.
  by rewrite bool_decide_eq_false_2.
Qed.

Lemma order_status_accepts_any_valid_witness :
  order_status false (shop [mugs_order "DELIVERED" (Some "pi_1")]) "o1"
    (Some "REFUNDED")
  = (StatusForm (mugs_order "REFUNDED" (Some "pi_1")),
     shop [mugs_order "REFUNDED" (Some "pi_1")], []).
Proof.
  refine (order_status_accepts_any_valid false
            (shop [mugs_order "DELIVERED" (Some "pi_1")]) "o1" 0%nat
            (mugs_order "DELIVERED" (Some "pi_1")) "REFUNDED" eq_refl _ _).
  - unfold valid. set_solver.
  - discriminate.
Defined.

(** X10. A status change never touches a product or the settings, keeps
    the number of orders, and asks the outside world for nothing but, at
    most, the shipping mail of the order. *)
Theorem order_status_keeps_shelf :
  forall r (st : Store) id new_status,
    let '(_, st', asked) := order_status r st id new_status in
    products st' = products st /\ settings st' = settings st
    /\ length (orders st') = length (orders st)
    /\ (asked = []
        \/ exists o, new_status = Some "SHIPPED"
                     /\ asked = [send_shipping_notification o]).
Proof.
  intros r st id new_status. unfold order_status.
  destruct (order_by_id _ _) as [[i o]|]; [|by auto].
  destruct new_status as [s|]; [|by auto].
  destruct (decide _); [|by auto].
  destruct (bool_decide_reflect (s = "SHIPPED")) as [->|]; simpl.
  - destruct (shipping_notified o); simpl;
      rewrite length_insert; split_and!; eauto.
  - rewrite length_insert. auto.
Qed.

(** ** Refunds *)




(** ** Checkout *)

(** X12. A checkout never changes a product, the settings or an order
    that is already there: the store comes back as it was unless the
    answer is the success, and then exactly one order has been appended,
    PENDING, under the generated id and number, with both notification
    flags false. *)
Theorem checkout_only_appends :
  forall fits gw n id (st : Store) data,
    let '(resp, st', _) := create_payment_intent fits gw n id st data in
    (st' = st /\ forall secret num oid, resp <> CheckoutOk secret num oid)
    \/ (exists o intent,
          resp = CheckoutOk (client_secret intent) n id
          /\ st' = mkStore (products st) (orders st ++ [o])%list (settings st)
          /\ order_id o = id /\ order_number o = n /\ status o = "PENDING"
          /\ stripe_payment_intent_id o = Some (intent_id intent)
          /\ confirmation_sent o = false /\ shipping_notified o = false).
Proof.
  intros fits gw n id st data.
  destruct (create_payment_intent fits gw n id st data) as [[resp st'] asked] eqn:Hrun.
  destruct resp as [msg code|secret num oid|].
  - left. revert Hrun. unfold create_payment_intent.
    destruct (_ || _); [by intros [= <- <- <- <-]|].
    destruct (validate_items _ _ _ _) as [m|[sub ois]];
      [by intros [= <- <- <- <-]|].
    destruct (flush_conflict _ _ || _); [done|].
    destruct (gw _ _ _ _); [|done].
    by destruct (commit_conflict _ _ || _).
  - right. apply create_payment_intent_ok in Hrun
      as (intent & _ & _ & _ & -> & -> & -> & -> & _).
    exists (new_order id n st data intent), intent. by split_and!.
  - left. revert Hrun. unfold create_payment_intent.
    destruct (_ || _); [done|].
    destruct (validate_items _ _ _ _) as [m|[sub ois]]; [done|].
    destruct (flush_conflict _ _ || _); [by intros [= <- <-]|].
    destruct (gw _ _ _ _); [|by intros [= <- <-]].
    destruct (commit_conflict _ _ || _); [by intros [= <- <-]|done].
Qed.

Lemma all_in_stock_or_not st its :
  Forall (in_stock st) its
  \/ exists it, it ∈ its
       /\ (resolve st (item_id it) = None \/ exists p, short_of_stock st it p).
Proof.
  induction its as [|x its [IH|(it & Hin & Hbad)]].
  - left. constructor.
  - destruct (in_stock_or_not st x) as [Hx|Hx].
    + left. by constructor.
    + right. exists x. split; [left|done].
  - right. exists it. split; [by right|done].
Qed.

Lemma passes_or_fails st data :
  passes_validation st data \/ fails_validation st data.
Proof.
  unfold passes_validation, fails_validation.
  destruct (fields_present_dec data) as [Hf|Hn].
  - destruct (all_in_stock_or_not st (d_items data))
      as [Hall|(it & Hin & [Hr|(p & Hs)])].
    + by left.
    + right. right. right. right. left. by exists it.
    + right. right. right. right. right. by exists it, p.
  - right. unfold fields_present in Hn.
    destruct (decide (d_items data = [])); [by left|].
    destruct (truthy_opt (c_name _)) eqn:?; [|by right; left].
    destruct (truthy_opt (c_email _)) eqn:?; [|by right; right; left].
    destruct Hn. done.
Qed.

Lemma checkout_fails fits gw n id st data :
  fails_validation st data ->
  exists msg,
    create_payment_intent fits gw n id st data = (CheckoutError msg 400, st, []).
Proof.
  intros Hfail.
  destruct (fields_present_dec data) as [Hf|Hn];
    [|by eexists; apply checkout_missing_fields].
  assert (Hbad : ~ Forall (in_stock st) (d_items data)).
  { intros Hall. rewrite Forall_forall in Hall.
    destruct Hf as (Hi & Hname & Hmail).
    destruct Hfail as [?|[?|[?|[(it & Hin & Hr)|(it & p & Hin & Hs)]]]];
      [congruence..| |].
    - apply (in_stock_resolves st it); [by apply Hall | exact Hr].
    - apply (in_stock_not_short st it p); [by apply Hall | exact Hs]. }
  destruct (first_failure _ _ Hbad) as (pre & it & post & Hits & Hpre & Hit).
  destruct (checkout_first_failure fits gw n id st data pre it post Hf Hits Hpre)
    as [Hnone Hshort].
  destruct Hit as [Hr|(p & Hp)]; eexists; eauto.
Qed.

Lemma checkout_passes fits gw n id st data :
  passes_validation st data ->
  forall msg code,
    fst (fst (create_payment_intent fits gw n id st data)) <> CheckoutError msg code.
Proof.
  intros Hpass msg code. unfold create_payment_intent.
  rewrite (fields_present_check _ (proj1 Hpass)).
  rewrite (validate_items_checkout _ _ Hpass).
  destruct (flush_conflict _ _ || _); [done|].
  destruct (gw _ _ _ _); [|done].
  by destruct (commit_conflict _ _ || _).
Qed.

(** X13. The checkout answers with a 400 error exactly when validation
    fails: when an item list, name or email is missing, when an id
    resolves to no visible product, or when one item alone asks for more
    than the stock of its product.  Items are judged one by one, so two
    items for the same product pass when each is within stock. *)
Theorem checkout_rejects_iff_fails_validation :
  forall fits gw n id (st : Store) data,
    (exists msg,
        fst (fst (create_payment_intent fits gw n id st data)) = CheckoutError msg 400)
    <-> fails_validation st data.
Proof.
  intros fits gw n id st data. split.
  - intros (msg & Hmsg).
    destruct (passes_or_fails st data) as [Hpass|Hfail]; [|done].
    by destruct (checkout_passes fits gw n id st data Hpass msg 400).
  - intros Hfail. destruct (checkout_fails fits gw n id st data Hfail) as (msg & ->).
    by exists msg.
Qed.

Lemma checkout_rejects_iff_fails_validation_witness :
  fails_validation (shop []) cart_short_then_ghost.
Proof.
  apply (proj1 (checkout_rejects_iff_fails_validation sqlite_integer gateway_ok
                  "ORD-M0000001-CD34" "o2" (shop []) cart_short_then_ghost)).
  exists "Insufficient stock for Lamp. Available: 1". reflexivity.
Defined.

Lemma checkout_validated fits gw n id st data :
  passes_validation st data ->
  create_payment_intent fits gw n id st data
  = let sub := items_subtotal st (d_items data) in
    let fee := settings_fee st in
    let cur := settings_currency st in
    let asked := [PaymentIntentCreate (sub + fee) cur id n] in
    if flush_conflict (orders st) (new_order id n st data (mkIntent "" ""))
       || negb (fits sub && fits fee && fits (sub + fee))
    then (CheckoutRaised, st, [])
    else
      match gw (sub + fee) cur id n with
      | None => (CheckoutRaised, st, asked)
      | Some intent =>
          if commit_conflict (orders st) (new_order id n st data intent)
             || negb (forallb (item_fits fits)
                        (map (snapshot st) (d_items data)))
          then (CheckoutRaised, st, asked)
          else (CheckoutOk (client_secret intent) n id,
                set_orders st (orders st ++ [new_order id n st data intent])%list,
                asked)
      end.
Proof.
  intros Hpass. unfold create_payment_intent.
  rewrite (fields_present_check _ (proj1 Hpass)).
  rewrite (validate_items_checkout _ _ Hpass).
  reflexivity.
Qed.

(** X14. When the items pass validation but an amount of the order
    (subtotal, shipping cost or total) does not fit the Integer column,
    the request ends in a server error at the insert of the order: the
    gateway is not called and nothing is persisted.  When the amounts fit
    and the generated id and number are free but the gateway call raises,
    the request ends in a server error after asking the gateway for the
    total in the settings' currency, and no order is left behind. *)
Theorem checkout_gateway_failure_leaves_nothing :
  forall fits gw n id (st : Store) data,
    passes_validation st data ->
    (fits (items_subtotal st (d_items data)) && fits (settings_fee st)
     && fits (items_subtotal st (d_items data) + settings_fee st) = false ->
     create_payment_intent fits gw n id st data = (CheckoutRaised, st, []))
    /\ (fits (items_subtotal st (d_items data)) && fits (settings_fee st)
        && fits (items_subtotal st (d_items data) + settings_fee st) = true ->
        (forall o', o' ∈ orders st -> order_id o' <> id /\ order_number o' <> n) ->
        gw (items_subtotal st (d_items data) + settings_fee st)
           (settings_currency st) id n = None ->
        create_payment_intent fits gw n id st data
        = (CheckoutRaised, st,
           [PaymentIntentCreate
              (items_subtotal st (d_items data) + settings_fee st)
              (settings_currency st) id n])).
Proof.
  intros fits gw n id st data Hpass.
  rewrite (checkout_validated fits gw n id st data Hpass). cbv zeta. split.
  - intros ->. by rewrite orb_true_r.
  - intros -> Hfresh ->. by rewrite flush_conflict_free.
Qed.

Lemma checkout_gateway_failure_leaves_nothing_witness :
  create_payment_intent sqlite_integer gateway_ok "ORD-M0000001-CD34" "o2"
    (shop [mugs_order "PAID" (Some "pi_1")]) cart_huge_credit
  = (CheckoutRaised, shop [mugs_order "PAID" (Some "pi_1")], [])
  /\ create_payment_intent sqlite_integer (fun _ _ _ _ => None)
       "ORD-M0000001-CD34" "o2" (shop [mugs_order "PAID" (Some "pi_1")])
       cart_mugs_and_lamp
     = (CheckoutRaised, shop [mugs_order "PAID" (Some "pi_1")],
        [PaymentIntentCreate 5950 "eur" "o2" "ORD-M0000001-CD34"]).
Proof.
  split.
  - refine (proj1 (checkout_gateway_failure_leaves_nothing sqlite_integer
                     gateway_ok "ORD-M0000001-CD34" "o2"
                     (shop [mugs_order "PAID" (Some "pi_1")])
                     cart_huge_credit _) eq_refl).
    split; [split; [discriminate | split; reflexivity]|].
    constructor; [|constructor].
    exists mug. split; [reflexivity | simpl; lia].
  - refine (proj2 (checkout_gateway_failure_leaves_nothing sqlite_integer
                     (fun _ _ _ _ => None) "ORD-M0000001-CD34" "o2"
                     (shop [mugs_order "PAID" (Some "pi_1")])
                     cart_mugs_and_lamp _) eq_refl _ eq_refl).
    + split; [split; [discriminate | split; reflexivity]|].
      constructor; [|constructor; [|constructor]].
      * exists mug. split; [reflexivity | simpl; lia].
      * exists lamp. split; [reflexivity | simpl; lia].
    + intros o' [->|[]%elem_of_nil]%elem_of_cons. split; discriminate.
Defined.

(** X28. A checkout is accepted when its items pass validation, the
    amounts of the order and the quantities and prices of its items fit
    the Integer columns, the generated id and number are free, and the
    gateway answers with an intent whose reference is free: the answer
    carries the intent's client secret, and the order is appended with
    that reference. *)
Theorem checkout_accepts :
  forall fits gw n id (st : Store) data intent,
    passes_validation st data ->
    fits (items_subtotal st (d_items data)) && fits (settings_fee st)
    && fits (items_subtotal st (d_items data) + settings_fee st) = true ->
    forallb (item_fits fits) (map (snapshot st) (d_items data)) = true ->
    (forall o', o' ∈ orders st -> order_id o' <> id /\ order_number o' <> n) ->
    gw (items_subtotal st (d_items data) + settings_fee st)
       (settings_currency st) id n = Some intent ->
    (forall o', o' ∈ orders st ->
                stripe_payment_intent_id o' <> Some (intent_id intent)) ->
    create_payment_intent fits gw n id st data
    = (CheckoutOk (client_secret intent) n id,
       mkStore (products st) (orders st ++ [new_order id n st data intent])%list
         (settings st),
       [PaymentIntentCreate (items_subtotal st (d_items data) + settings_fee st)
          (settings_currency st) id n]).
Proof.
  intros fits gw n id st data intent Hpass Hamounts Hitems Hfresh Hgw Hfree.
  rewrite (checkout_validated fits gw n id st data Hpass). cbv zeta.
  rewrite Hamounts, flush_conflict_free by exact Hfresh. simpl.
  rewrite Hgw, Hitems, commit_conflict_free by exact Hfree.
  reflexivity.
Qed.

Lemma checkout_accepts_witness :
  create_payment_intent sqlite_integer gateway_ok "ORD-M0000001-CD34" "o2"
    (shop [mugs_order "PAID" (Some "pi_1")]) cart_mugs_and_lamp
  = (CheckoutOk "pi_9_secret" "ORD-M0000001-CD34" "o2",
     shop [mugs_order "PAID" (Some "pi_1"); mugs_and_lamp_order],
     [PaymentIntentCreate 5950 "eur" "o2" "ORD-M0000001-CD34"]).
Proof.
  refine (checkout_accepts sqlite_integer gateway_ok "ORD-M0000001-CD34" "o2"
            (shop [mugs_order "PAID" (Some "pi_1")]) cart_mugs_and_lamp
            (mkIntent "pi_9" "pi_9_secret") _ eq_refl eq_refl _ eq_refl _).
  - split; [split; [discriminate | split; reflexivity]|].
    constructor; [|constructor; [|constructor]].
    + exists mug. split; [reflexivity | simpl; lia].
    + exists lamp. split; [reflexivity | simpl; lia].
  - intros o' [->|[]%elem_of_nil]%elem_of_cons. split; discriminate.
  - intros o' [->|[]%elem_of_nil]%elem_of_cons. discriminate.
Defined.

(** ** The dashboard over checkout and payment *)

Lemma sum_app l1 l2 : sum (l1 ++ l2) = sum l1 + sum l2.
Proof.
  unfold sum. rewrite fold_left_app.
  by rewrite (fold_left_add_from l2 (fold_left Z.add l1 0)).
Qed.

Lemma pending_cons (o : Order) os :
  sum (map (fun _ : Order => 1)
         (filter (fun o => status o = "PENDING") (o :: os)))
  = (if decide (status o = "PENDING") then 1 else 0)
    + sum (map (fun _ : Order => 1)
             (filter (fun o => status o = "PENDING") os)).
Proof.
  rewrite filter_cons. destruct (decide _); simpl; [by rewrite sum_cons|lia].
Qed.

Lemma pending_snoc os (o : Order) :
  sum (map (fun _ : Order => 1)
         (filter (fun o => status o = "PENDING") (os ++ [o])%list))
  = sum (map (fun _ : Order => 1)
           (filter (fun o => status o = "PENDING") os))
    + (if decide (status o = "PENDING") then 1 else 0).
Proof.
  induction os as [|x os IH].
  - change ([] ++ [o])%list with [o]. rewrite pending_cons. simpl. lia.
  - change ((x :: os) ++ [o])%list with (x :: (os ++ [o]))%list.
    rewrite !pending_cons, IH. lia.
Qed.


Lemma revenue_snoc os o :
  revenue (os ++ [o])%list
  = revenue os + (if counts_as_revenue o then total o else 0).
Proof. induction os as [|x os IH]; simpl; [lia|]. rewrite IH. lia. Qed.


(** X15. An accepted checkout shows on the dashboard as one more order and
    one more pending order; the revenue and the number of products are as
    before. *)
Theorem dashboard_after_checkout :
  forall fits gw n id (st : Store) data secret num oid st' asked,
    create_payment_intent fits gw n id st data
    = (CheckoutOk secret num oid, st', asked) ->
    total_revenue (dashboard st') = total_revenue (dashboard st)
    /\ pending_count (dashboard st') = pending_count (dashboard st) + 1
    /\ order_count (dashboard st') = S (order_count (dashboard st))
    /\ product_count (dashboard st') = product_count (dashboard st).
Proof.
  intros fits gw n id st data secret num oid st' asked Hrun.
  apply create_payment_intent_ok in Hrun
    as (intent & _ & _ & _ & _ & _ & _ & -> & _).
  unfold dashboard. simpl. split_and!.
  - rewrite !total_revenue_orders, revenue_snoc. simpl. lia.
  - by rewrite pending_snoc.
  - rewrite length_app. simpl. lia.
  - done.
Qed.

Lemma dashboard_after_checkout_witness :
  total_revenue (dashboard (shop [mugs_and_lamp_order])) = 0
  /\ pending_count (dashboard (shop [mugs_and_lamp_order])) = 1.
Proof.
  destruct (dashboard_after_checkout sqlite_integer gateway_ok "ORD-M0000001-CD34" "o2"
              (shop []) cart_mugs_and_lamp "pi_9_secret" "ORD-M0000001-CD34"
              "o2" (shop [mugs_and_lamp_order])
              [PaymentIntentCreate 5950 "eur" "o2" "ORD-M0000001-CD34"]
              eq_refl) as (Hrev & Hpend & _).
  split; [exact Hrev | exact Hpend].
Defined.



(** ** The admin session *)

Lemma session_run_true pw rs :
  forall admin,
    session_run pw rs admin = true ->
    admin = true
    \/ exists p, Login POST p ∈ rs /\ default "" p = pw.
Proof.
  unfold session_run.
  induction rs as [|req rs IH]; intros admin Hrun; simpl in Hrun; [by left|].
  destruct (IH _ Hrun) as [Hstep|(p & Hin & Hp)].
  - destruct req as [m p|]; simpl in Hstep; [|done].
    unfold login in Hstep. destruct admin; [by left|].
    destruct m; [done|]. destruct (decide _) as [Hp|]; [|done].
    right. exists p. split; [left|done].
  - right. exists p. split; [by right|done].
Qed.

(** X17. A session without the admin flag gets it only from a POST to the
    login form that carries the configured password; a logout drops the
    flag whatever came before, so that the same holds after it. *)
Theorem session_needs_password :
  forall pw rs,
    (session_run pw rs false = true ->
     exists p, Login POST p ∈ rs /\ default "" p = pw)
    /\ (forall before admin,
          session_run pw (before ++ Logout :: rs)%list admin
          = session_run pw rs false).
Proof.
  intros pw rs. split.
  - intros Hrun. by destruct (session_run_true pw rs false Hrun).
  - intros before admin. unfold session_run. by rewrite fold_left_app.
Qed.

Lemma session_needs_password_witness :
  exists p,
    Login POST p ∈ [Login GET None; Login POST (Some "guess");
                    Login POST (Some "admin123"); Login GET None]
    /\ default "" p = "admin123".
Proof.
  exact (proj1 (session_needs_password "admin123"
                  [Login GET None; Login POST (Some "guess");
                   Login POST (Some "admin123"); Login GET None]) eq_refl).
Defined.

(** ** Deleting a product *)

Lemma lookup_map {A B} (f : A -> B) (l : list A) :
  forall j x, l !! j = Some x -> map f l !! j = Some (f x).
Proof.
  induction l as [|y l IH]; intros [|j] x Hj; simplify_eq/=; [done|].
  by apply IH.
Qed.

Lemma forget_product_fields id it :
  quantity (forget_product id it) = quantity it
  /\ price_at_time (forget_product id it) = price_at_time it
  /\ product_name (forget_product id it) = product_name it
  /\ product_id (forget_product id it)
     = if decide (product_id it = Some id) then None else product_id it.
Proof. unfold forget_product. by destruct (decide _). Qed.

Lemma restocked_forgotten id its :
  restocked id (map (forget_product id) its) = 0.
Proof.
  induction its as [|it its IH]; simpl; [done|]. rewrite IH.
  destruct (forget_product_fields id it) as (_ & _ & _ & ->).
  destruct (decide (product_id it = Some id)).
  - by rewrite decide_False.
  - by rewrite decide_False.
Qed.

Lemma revenue_forgotten id os :
  revenue (map (fun o => set_items o (map (forget_product id) (items o))) os)
  = revenue os.
Proof. induction os as [|o os IH]; simpl; [done|]. by rewrite IH. Qed.

(** X18. Deleting a product that is not there is answered 404 and changes
    nothing.  Deleting one that is there removes that product alone; the
    orders stay, each with its id, status, totals and flags, and each item
    keeps its quantity, price and name snapshot and loses only a reference
    to the deleted product. *)
Theorem product_delete_keeps_history :
  forall (st : Store) id,
    (products st !! id = None -> product_delete st id = (DeleteNotFound, st))
    /\ (is_Some (products st !! id) ->
        let st' := snd (product_delete st id) in
        products st' = delete id (products st)
        /\ settings st' = settings st
        /\ length (orders st') = length (orders st)
        /\ forall j o, orders st !! j = Some o ->
             exists o', orders st' !! j = Some o'
               /\ set_items o' (items o) = o
               /\ Forall2 (fun it it' =>
                    quantity it' = quantity it
                    /\ price_at_time it' = price_at_time it
                    /\ product_name it' = product_name it
                    /\ product_id it'
                       = if decide (product_id it = Some id) then None
                         else product_id it)
                    (items o) (items o')).
Proof.
  intros st id. unfold product_delete. split.
  - by intros ->.
  - intros [p ->]. simpl. split_and!; [done..|by rewrite length_map|].
    intros j o Hj. eexists. split_and!.
    + by apply lookup_map.
    + by destruct o.
    + simpl. induction (items o) as [|it its IH]; simpl; constructor.
      * apply forget_product_fields.
      * exact IH.
Qed.

Lemma product_delete_keeps_history_witness :
  fst (product_delete (shop [mugs_order "PAID" (Some "pi_1")]) "p-mug")
  = DeleteRedirect "Product deleted" "success"
  /\ products (snd (product_delete (shop [mugs_order "PAID" (Some "pi_1")])
                      "p-mug"))
     = delete "p-mug" shelf.
Proof.
  split; [reflexivity|].
  exact (proj1 (proj2 (product_delete_keeps_history
                         (shop [mugs_order "PAID" (Some "pi_1")]) "p-mug")
                  (ex_intro _ mug eq_refl))).
Defined.

(** X19. A deleted product stays deleted: no later delivery to the webhook
    and no later refund brings it back, no order gives it stock back
    any more, and the dashboard's revenue is what it was. *)
Theorem deleted_product_stays_gone :
  forall verify r refund_create (st : Store) id payload sig oid,
    is_Some (products st !! id) ->
    let st1 := snd (product_delete st id) in
    products (snd (fst (stripe_webhook verify r st1 payload sig))) !! id = None
    /\ products (snd (fst (order_refund refund_create st1 oid))) !! id = None
    /\ Forall (fun o => restocked id (items o) = 0) (orders st1)
    /\ total_revenue (dashboard st1) = total_revenue (dashboard st).
Proof.
  intros verify r rc st id payload sig oid [p Hp].
  assert (Hgone : products (snd (product_delete st id)) !! id = None).
  { unfold product_delete. rewrite Hp. simpl. apply lookup_delete_eq. }
  destruct (handlers_keep_products verify r rc (snd (product_delete st id))
              payload sig oid id) as [Hw Hr].
  rewrite Hgone in Hw, Hr. simpl in Hw, Hr.
  apply fmap_None in Hw. apply fmap_None in Hr. cbv zeta.
  split_and!.
  - exact Hw.
  - exact Hr.
  - unfold product_delete. rewrite Hp. simpl.
    apply Forall_map. apply Forall_forall. intros o _. simpl.
    apply restocked_forgotten.
  - unfold product_delete. rewrite Hp. unfold dashboard. simpl.
    by rewrite !total_revenue_orders, revenue_forgotten.
Qed.

Lemma deleted_product_stays_gone_witness :
  products
    (snd (fst (order_refund refund_ok
                 (snd (product_delete (shop [mugs_order "PAID" (Some "pi_1")])
                         "p-mug")) "o1"))) !! "p-mug"
  = None.
Proof.
  exact (proj1 (proj2 (deleted_product_stays_gone verify_ok false refund_ok
                         (shop [mugs_order "PAID" (Some "pi_1")]) "p-mug"
                         "pi_1" None "o1" (ex_intro _ mug eq_refl)))).
Defined.

(** ** Strings *)

Lemma append_cons x (a b : string) : String x a ++ b = String x (a ++ b).
Proof. reflexivity. Qed.

Lemma append_assoc (a b c : string) : (a ++ b) ++ c = a ++ b ++ c.
Proof.
  induction a as [|x a IH]; [done|]. by rewrite !append_cons, IH.
Qed.

Lemma append_empty_r (a : string) : a ++ "" = a.
Proof. induction a as [|x a IH]; [done|]. by rewrite append_cons, IH. Qed.

Lemma length_append (a b : string) :
  String.length (a ++ b) = (String.length a + String.length b)%nat.
Proof.
  induction a as [|x a IH]; [done|]. rewrite append_cons. simpl. by rewrite IH.
Qed.

Lemma append_inj_length (a a' b b' : string) :
  a ++ b = a' ++ b' -> String.length a = String.length a' ->
  a = a' /\ b = b'.
Proof.
  revert a'. induction a as [|x a IH]; intros [|x' a'] Heq Hlen;
    try discriminate Hlen; [done|].
  rewrite !append_cons in Heq. injection Heq as -> Heq.
  injection Hlen as Hlen. by destruct (IH a' Heq Hlen) as [-> ->].
Qed.

Lemma prefix_append (p s : string) :
  String.prefix p s = true <-> exists rest, s = p ++ rest.
Proof.
  revert s. induction p as [|a p IH]; intros s.
  - destruct s; simpl; split; eauto.
  - destruct s as [|b s]; simpl.
    + split; [done|]. intros (rest & Hr). by rewrite append_cons in Hr.
    + destruct (ascii_dec a b) as [->|Hne].
      * rewrite IH. split; intros (rest & Hr); exists rest.
        -- by rewrite append_cons, Hr.
        -- rewrite append_cons in Hr. by injection Hr.
      * split; [done|]. intros (rest & Hr). rewrite append_cons in Hr.
        congruence.
Qed.

Lemma contains_unfold sub s :
  contains sub s
  = if String.prefix sub s then true
    else match s with
         | EmptyString => false
         | String _ s' => contains sub s'
         end.
Proof. by destruct s. Qed.

Lemma contains_append sub s :
  contains sub s = true <-> exists a b, s = a ++ sub ++ b.
Proof.
  split.
  - induction s as [|c s IH]; rewrite contains_unfold;
      destruct (String.prefix sub _) eqn:Hp.
    + apply prefix_append in Hp as (rest & ->). intros _. by exists "", rest.
    + done.
    + apply prefix_append in Hp as (rest & ->). intros _. by exists "", rest.
    + intros (a & b & ->)%IH. exists (String c a), b. by rewrite append_cons.
  - intros (a & b & ->). induction a as [|c a IH]; rewrite contains_unfold.
    + rewrite (proj2 (prefix_append sub ("" ++ sub ++ b))); [done|]. by exists b.
    + rewrite append_cons, IH. by destruct (String.prefix _ _).
Qed.

Lemma contains_dot_cons c s :
  contains "." (String c s) = Ascii.eqb c "." || contains "." s.
Proof.
  rewrite contains_unfold. cbn [String.prefix].
  destruct (ascii_dec "." c) as [<-|Hne].
  - by destruct s.
  - rewrite (proj2 (Ascii.eqb_neq c ".")); [reflexivity|]. intros ->. by apply Hne.
Qed.

Lemma rsplit1_no_dot s :
  contains "." s = false -> rsplit1 "." s = [s].
Proof.
  induction s as [|c s IH]; [done|].
  rewrite contains_dot_cons. intros [Hc Hs]%orb_false_iff.
  simpl. by rewrite (IH Hs), Hc.
Qed.

Lemma rsplit1_dot s :
  contains "." s = true ->
  exists a b, rsplit1 "." s = [a; b] /\ s = a ++ "." ++ b
              /\ contains "." b = false.
Proof.
  induction s as [|c s IH]; [done|].
  rewrite contains_dot_cons. intros Hc.
  destruct (contains "." s) eqn:Hs.
  - destruct (IH eq_refl) as (a & b & Hr & -> & Hb).
    exists (String c a), b. simpl. by rewrite Hr.
  - rewrite orb_false_r in Hc. apply Ascii.eqb_eq in Hc as ->.
    exists "", s. simpl. by rewrite (rsplit1_no_dot s Hs).
Qed.

Lemma rsplit1_append stem ext :
  contains "." ext = false -> rsplit1 "." (stem ++ "." ++ ext) = [stem; ext].
Proof.
  intros Hext. induction stem as [|c stem IH].
  - change ("" ++ "." ++ ext) with (String "." ext). simpl.
    by rewrite (rsplit1_no_dot ext Hext).
  - rewrite append_cons. simpl. by rewrite IH.
Qed.

(** ** Uploads *)

(** X20. A file name is allowed exactly when it is some text, a dot, and
    an extension without a dot that, in lower case, is one of png, jpg,
    jpeg, gif and webp: only what follows the last dot counts, whatever
    its case, and a name without a dot is never allowed. *)
Theorem allowed_file_iff :
  forall filename,
    allowed_file filename = true
    <-> exists stem ext,
          filename = stem ++ "." ++ ext /\ contains "." ext = false
          /\ lower ext ∈ ALLOWED_EXTENSIONS.
Proof.
  intros filename.
  unfold allowed_file, extension. rewrite andb_true_iff, bool_decide_eq_true.
  split.
  - intros [Hdot Hext].
    destruct (rsplit1_dot filename Hdot) as (a & b & Hr & -> & Hb).
    rewrite Hr in Hext. by exists a, b.
  - intros (stem & ext & -> & Hno & Hin). split.
    + apply contains_append. by exists stem, ext.
    + by rewrite (rsplit1_append stem ext Hno).
Qed.

Lemma allowed_file_iff_witness :
  allowed_file "holiday.photo.JPG" = true.
Proof.
  apply (proj2 (allowed_file_iff "holiday.photo.JPG")).
  exists "holiday.photo", "JPG". split_and!; [reflexivity..|].
  unfold ALLOWED_EXTENSIONS. rewrite !elem_of_union, !elem_of_singleton.
  change (lower "JPG") with "jpg". tauto.
Defined.

Lemma allowed_extension ext :
  ext ∈ ALLOWED_EXTENSIONS ->
  ext = "png" \/ ext = "jpg" \/ ext = "jpeg" \/ ext = "gif" \/ ext = "webp".
Proof.
  unfold ALLOWED_EXTENSIONS. rewrite !elem_of_union, !elem_of_singleton. tauto.
Qed.

Lemma upload_saved admin hex file resp stored :
  upload admin hex file = (resp, Some stored) ->
  admin = true
  /\ exists filename,
       file = Some filename
       /\ allowed_file filename = true
       /\ stored = hex ++ "." ++ extension filename
       /\ extension filename ∈ ALLOWED_EXTENSIONS
       /\ resp = UploadCreated ("/api/uploads/" ++ stored) 201.
Proof.
  unfold upload. destruct admin; [|done]. simpl.
  destruct file as [filename|]; [|done]. simpl.
  destruct (truthy filename); [|done]. simpl.
  destruct (allowed_file filename) eqn:Hok; [|done]. simpl.
  unfold save_upload.
  pose proof Hok as [Hdot Hext%bool_decide_eq_true]%andb_true_iff.
  rewrite Hdot. intros [= <- <-]. split; [done|]. by exists filename.
Qed.

(** X21. Without the admin flag an upload is answered 401 and nothing is
    saved, whatever is sent.  A file is saved only for an admin and only
    under the generated name followed by a dot and the lower-case
    extension of the name sent, which is one of the five allowed; the
    answer is then 201 with the URL of that name. *)
Theorem upload_saves_only_for_admin :
  forall admin hex file,
    (admin = false ->
     upload admin hex file = (UploadError "Unauthorized" 401, None))
    /\ (forall resp stored,
          upload admin hex file = (resp, Some stored) ->
          admin = true
          /\ exists stem ext,
               file = Some (stem ++ "." ++ ext)
               /\ lower ext ∈ ALLOWED_EXTENSIONS
               /\ stored = hex ++ "." ++ lower ext
               /\ resp = UploadCreated ("/api/uploads/" ++ stored) 201).
Proof.
  intros admin hex file. split; [by intros ->|].
  intros resp stored (Hadmin & filename & -> & Hok & -> & Hin & ->)%upload_saved.
  split; [done|].
  unfold extension in *.
  pose proof Hok as [Hdot _]%andb_true_iff.
  destruct (rsplit1_dot filename Hdot) as (a & b & Hr & -> & Hb).
  rewrite Hr in *. simpl in *. by exists a, b.
Qed.

Lemma upload_saves_only_for_admin_witness :
  upload false "0f3a" (Some "cat.png") = (UploadError "Unauthorized" 401, None).
Proof.
  exact (proj1 (upload_saves_only_for_admin false "0f3a" (Some "cat.png"))
           eq_refl).
Defined.

(** X22. A stored file is refused with 400 exactly when its name has two
    dots in a row anywhere, also inside a name such as a..b; every other
    name is handed to the directory lookup with a cache time of one
    year. *)
Theorem serve_upload_refuses_dotdot :
  forall dir filename,
    (serve_upload dir filename = ServeAbort 400
     <-> exists a b, filename = a ++ ".." ++ b)
    /\ (serve_upload dir filename = ServeAbort 400
        \/ serve_upload dir filename = ServeFromDirectory dir filename 31536000).
Proof.
  intros dir filename. unfold serve_upload.
  rewrite <- contains_append.
  destruct (contains ".." filename); split; auto; split; done.
Qed.

Lemma serve_upload_refuses_dotdot_witness :
  serve_upload "uploads" "../app/config.py" = ServeAbort 400.
Proof.
  apply (proj2 (proj1 (serve_upload_refuses_dotdot "uploads"
                         "../app/config.py"))).
  by exists "", "/app/config.py".
Defined.

Lemma no_dotdot hex ext :
  contains "." hex = false -> ext ∈ ALLOWED_EXTENSIONS ->
  contains ".." (hex ++ "." ++ ext) = false.
Proof.
  intros Hhex Hext. induction hex as [|c hex IH].
  - apply allowed_extension in Hext as [->|[->|[->|[->| ->]]]]; reflexivity.
  - rewrite contains_dot_cons in Hhex.
    apply orb_false_iff in Hhex as [Hc Hhex].
    rewrite append_cons, contains_unfold. cbn [String.prefix].
    destruct (ascii_dec "." c) as [<-|Hne]; [done|]. by apply IH.
Qed.

(** X23. What an upload saves can be fetched: when the generated name has
    no dot, the name in the returned URL passes the check of the
    retrieval endpoint. *)
Theorem uploaded_file_is_served :
  forall hex file resp stored dir,
    upload true hex file = (resp, Some stored) ->
    contains "." hex = false ->
    resp = UploadCreated ("/api/uploads/" ++ stored) 201
    /\ serve_upload dir stored = ServeFromDirectory dir stored 31536000.
Proof.
  intros hex file resp stored dir
    (_ & filename & -> & Hok & -> & Hin & ->)%upload_saved Hhex.
  split; [done|]. unfold serve_upload. by rewrite no_dotdot.
Qed.

Lemma uploaded_file_is_served_witness :
  serve_upload "uploads" "0f3a.png"
  = ServeFromDirectory "uploads" "0f3a.png" 31536000.
Proof.
  exact (proj2 (uploaded_file_is_served "0f3a" (Some "Cat.PNG")
                  (UploadCreated "/api/uploads/0f3a.png" 201) "0f3a.png"
                  "uploads" eq_refl eq_refl)).
Defined.

(** ** Configuration *)

Lemma replace1_unfold old new s :
  replace1 old new s
  = if String.prefix old s then new ++ skip (String.length old) s
    else match s with
         | EmptyString => EmptyString
         | String c s' => String c (replace1 old new s')
         end.
Proof. by destruct s. Qed.

Lemma replace1_prefix old new rest :
  replace1 old new (old ++ rest) = new ++ rest.
Proof.
  assert (Hskip : skip (String.length old) (old ++ rest) = rest).
  { induction old as [|c old IH]; [by destruct rest|].
    rewrite append_cons. simpl. exact IH. }
  assert (Hp : String.prefix old (old ++ rest) = true)
    by (apply prefix_append; by exists rest).
  rewrite replace1_unfold, Hp. by rewrite Hskip.
Qed.

Lemma database_uri_set url :
  SQLALCHEMY_DATABASE_URI (Some url)
  = if String.prefix "postgres://" url
    then replace1 "postgres://" "postgresql://" url else url.
Proof. reflexivity. Qed.

(** X24. The database URI never starts with postgres://: such a URL has
    that prefix, and only it, replaced by postgresql://; any other URL is
    taken as it is, the default is sqlite:///dev.db, and normalising
    twice is normalising once. *)
Theorem database_url_scheme :
  forall env,
    String.prefix "postgres://" (SQLALCHEMY_DATABASE_URI env) = false
    /\ (forall rest, env = Some ("postgres://" ++ rest) ->
          SQLALCHEMY_DATABASE_URI env = "postgresql://" ++ rest)
    /\ (forall url, env = Some url -> String.prefix "postgres://" url = false ->
          SQLALCHEMY_DATABASE_URI env = url)
    /\ (env = None -> SQLALCHEMY_DATABASE_URI env = "sqlite:///dev.db")
    /\ SQLALCHEMY_DATABASE_URI (Some (SQLALCHEMY_DATABASE_URI env))
       = SQLALCHEMY_DATABASE_URI env.
Proof.
  intros env.
  assert (Hnew : forall rest,
            String.prefix "postgres://" ("postgresql://" ++ rest) = false)
    by reflexivity.
  assert (Hold : forall rest,
            SQLALCHEMY_DATABASE_URI (Some ("postgres://" ++ rest))
            = "postgresql://" ++ rest).
  { intros rest. rewrite database_uri_set.
    rewrite (proj2 (prefix_append "postgres://" ("postgres://" ++ rest)))
      by (by exists rest).
    apply replace1_prefix. }
  assert (Hkeep : forall url, String.prefix "postgres://" url = false ->
            SQLALCHEMY_DATABASE_URI (Some url) = url).
  { intros url Hp. by rewrite database_uri_set, Hp. }
  assert (Hfix : String.prefix "postgres://" (SQLALCHEMY_DATABASE_URI env) = false).
  { destruct env as [url|]; [|reflexivity].
    destruct (String.prefix "postgres://" url) eqn:Hp.
    - apply prefix_append in Hp as (rest & ->). by rewrite Hold.
    - by rewrite Hkeep. }
  split_and!.
  - exact Hfix.
  - intros rest ->. apply Hold.
  - intros url ->. apply Hkeep.
  - by intros ->.
  - by apply Hkeep.
Qed.

Lemma database_url_scheme_witness :
  SQLALCHEMY_DATABASE_URI (Some "postgres://shop:pw@db/postgres://x")
  = "postgresql://shop:pw@db/postgres://x".
Proof.
  exact (proj1 (proj2 (database_url_scheme
                         (Some "postgres://shop:pw@db/postgres://x")))
           "shop:pw@db/postgres://x" eq_refl).
Defined.

(** ** Order numbers *)

Lemma base36_value_digit r :
  (r < 36)%N -> base36_value (base36_digit r) = r.
Proof.
  intros Hr. rewrite <- (N2Nat.id r).
  assert (Hn : (N.to_nat r < 36)%nat) by lia.
  revert Hn. generalize (N.to_nat r). intros n Hn.
  do 36 (destruct n as [|n]; [reflexivity|]). lia.
Qed.

Lemma list_ascii_append (a b : string) :
  list_ascii_of_string (a ++ b)
  = (list_ascii_of_string a ++ list_ascii_of_string b)%list.
Proof.
  induction a as [|c a IH]; [done|]. rewrite append_cons. simpl. by rewrite IH.
Qed.

Lemma int36_snoc s c :
  int36 (s ++ String c "") = (36 * int36 s + base36_value c)%N.
Proof.
  unfold int36. rewrite list_ascii_append, fold_left_app. reflexivity.
Qed.

Lemma base36_loop_acc turns :
  forall now acc,
    base36_loop turns now acc = base36_loop turns now "" ++ acc.
Proof.
  induction turns as [|turns IH]; intros now acc; simpl; [done|].
  destruct (now =? 0)%N; [done|].
  rewrite (IH _ (String _ acc)), (IH _ (String _ "")).
  by rewrite append_assoc.
Qed.

Lemma size_nat_div36 now :
  now <> 0%N -> (N.size_nat (now / 36) < N.size_nat now)%nat.
Proof.
  intros Hnow. destruct now as [|p]; [done|].
  destruct (N.pos p / 36)%N as [|q] eqn:Hq;
    [cbn [N.size_nat]; destruct p; cbn [Pos.size_nat]; lia|].
  cbn [N.size_nat].
  assert (Hle : (N.pos (xO q) <= N.pos p)%N).
  { pose proof (N.Div0.mul_div_le (N.pos p) 36) as Hm. rewrite Hq in Hm. lia. }
  unfold lt. change (S (Pos.size_nat q)) with (Pos.size_nat (xO q)).
  destruct (Pos.eq_dec (xO q) p) as [<-|Hne]; [lia|].
  apply Pos.size_nat_monotone. lia.
Qed.

Lemma int36_base36_loop turns :
  forall now,
    (N.size_nat now <= turns)%nat ->
    int36 (base36_loop turns now "") = now.
Proof.
  induction turns as [|turns IH]; intros now Hturns.
  - destruct now as [|p]; [done|]. destruct p; simpl in Hturns; lia.
  - simpl. destruct (N.eqb_spec now 0) as [->|Hnow]; [done|].
    rewrite base36_loop_acc, int36_snoc.
    pose proof (size_nat_div36 now Hnow).
    rewrite IH by lia.
    rewrite base36_value_digit by (apply N.mod_lt; lia).
    symmetry. apply N.div_mod'.
Qed.

Lemma base36_loop_enough t1 :
  forall t2 now,
    (N.size_nat now <= t1)%nat -> (N.size_nat now <= t2)%nat ->
    base36_loop t1 now "" = base36_loop t2 now "".
Proof.
  induction t1 as [|t1 IH]; intros t2 now H1 H2.
  - destruct now as [|p]; [by destruct t2|]. destruct p; simpl in H1; lia.
  - simpl. destruct (N.eqb_spec now 0) as [->|Hnow]; [by destruct t2|].
    pose proof (size_nat_div36 now Hnow).
    destruct t2 as [|t2]; [lia|]. simpl.
    rewrite (proj2 (N.eqb_neq now 0)) by done.
    rewrite (base36_loop_acc t1), (base36_loop_acc t2).
    by rewrite (IH t2 (now / 36)%N) by lia.
Qed.

(** X25. An order number is ORD-, the timestamp in base 36, a dash and the
    random characters; read as a base-36 number the middle part is the
    timestamp again.  The loop that writes it has ended within as many
    turns as the timestamp has bits, and for the timestamp 0 it writes
    nothing at all. *)
Theorem order_number_reads_back :
  forall now rand,
    exists base36,
      generate_order_number now rand = "ORD-" ++ base36 ++ "-" ++ rand
      /\ int36 base36 = now
      /\ (now = 0%N -> base36 = "")
      /\ forall turns, (N.size_nat now <= turns)%nat ->
                       base36_loop turns now "" = base36.
Proof.
  intros now rand. exists (base36_loop (N.size_nat now) now "").
  split_and!.
  - reflexivity.
  - by apply int36_base36_loop.
  - by intros ->.
  - intros turns Hturns. by apply base36_loop_enough.
Qed.

Lemma order_number_reads_back_witness :
  exists base36,
    generate_order_number 0 "AB12" = "ORD-" ++ base36 ++ "-" ++ "AB12"
    /\ base36 = "".
Proof.
  destruct (order_number_reads_back 0 "AB12") as (b & Hgen & _ & Hzero & _).
  exists b. split; [exact Hgen | exact (Hzero eq_refl)].
Defined.

Lemma base36_loop_length_inj n1 n2 r1 r2 :
  base36_loop (N.size_nat n1) n1 "" ++ "-" ++ r1
  = base36_loop (N.size_nat n2) n2 "" ++ "-" ++ r2 ->
  String.length r1 = String.length r2 ->
  n1 = n2 /\ r1 = r2.
Proof.
  intros Heq Hlen.
  assert (Hl : String.length (base36_loop (N.size_nat n1) n1 "")
               = String.length (base36_loop (N.size_nat n2) n2 "")).
  { apply (f_equal String.length) in Heq.
    rewrite !length_append in Heq. simpl in Heq. lia. }
  destruct (append_inj_length _ _ _ _ Heq Hl) as [Hb Hr].
  split.
  - rewrite <- (int36_base36_loop (N.size_nat n1) n1),
      <- (int36_base36_loop (N.size_nat n2) n2) by done.
    by rewrite Hb.
  - change ("-" ++ r1) with (String "-" r1) in Hr.
    change ("-" ++ r2) with (String "-" r2) in Hr. by injection Hr.
Qed.

(** X26. Two order numbers whose random parts have the same length are
    equal only if the timestamps are equal and the random parts are
    equal: within one millisecond, a collision needs the same four
    random characters. *)
Theorem order_numbers_differ :
  forall n1 n2 r1 r2,
    String.length r1 = String.length r2 ->
    generate_order_number n1 r1 = generate_order_number n2 r2 ->
    n1 = n2 /\ r1 = r2.
Proof.
  intros n1 n2 r1 r2 Hlen Heq. unfold generate_order_number in Heq.
  apply (inj (String.append "ORD-")) in Heq.
  by apply base36_loop_length_inj.
Qed.

Lemma order_numbers_differ_witness :
  1730629800000%N = 1730629800000%N /\ "AB12" = "AB12".
Proof.
  exact (order_numbers_differ 1730629800000 1730629800000 "AB12" "AB12"
           eq_refl eq_refl).
Defined.

(** ** Mail over TLS *)

Lemma lower_char_only (lo up : ascii) :
  (lo = "t"%char /\ up = "T"%char) \/ (lo = "r"%char /\ up = "R"%char)
  \/ (lo = "u"%char /\ up = "U"%char) \/ (lo = "e"%char /\ up = "E"%char) ->
  forall x, lower_char x = lo -> x = lo \/ x = up.
Proof.
  intros Hl x.
  destruct Hl as [[-> ->]|[[-> ->]|[[-> ->]|[-> ->]]]];
    destruct x as [[] [] [] [] [] [] [] []]; vm_compute;
    intros H; try discriminate H; auto.
Qed.

(** X27. Mail goes over TLS exactly when MAIL_USE_TLS is unset or spells
    true in any mix of upper and lower case; any other value, such as 1,
    yes or on, turns it off. *)
Theorem mail_tls_only_for_true :
  forall env,
    MAIL_USE_TLS env = true
    <-> env = None
        \/ exists c1 c2 c3 c4,
             env = Some (String c1 (String c2 (String c3 (String c4 ""))))
             /\ (c1 = "t"%char \/ c1 = "T"%char) /\ (c2 = "r"%char \/ c2 = "R"%char)
             /\ (c3 = "u"%char \/ c3 = "U"%char) /\ (c4 = "e"%char \/ c4 = "E"%char).
Proof.
  intros env. unfold MAIL_USE_TLS. rewrite String.eqb_eq. split.
  - destruct env as [s|]; [|by left]. intros Hs. right.
    destruct s as [|c1 [|c2 [|c3 [|c4 [|c5 s]]]]]; try discriminate Hs.
    injection Hs as H1 H2 H3 H4.
    exists c1, c2, c3, c4. split_and!; [done|..].
    + apply (lower_char_only "t"%char "T"%char); auto.
    + apply (lower_char_only "r"%char "R"%char); auto.
    + apply (lower_char_only "u"%char "U"%char); auto.
    + apply (lower_char_only "e"%char "E"%char); auto.
  - intros [->|(c1 & c2 & c3 & c4 & -> & H1 & H2 & H3 & H4)]; [reflexivity|].
    by destruct H1 as [->| ->], H2 as [->| ->], H3 as [->| ->], H4 as [->| ->].
Qed.

Lemma mail_tls_only_for_true_witness :
  MAIL_USE_TLS (Some "True") = true.
Proof.
  apply (proj2 (mail_tls_only_for_true (Some "True"))).
  right. exists "T"%char, "r"%char, "u"%char, "e"%char. auto 10.
Defined.
